(** * Verification of the credential-verification SDK

    A shallow embedding of the issuer registry ([src/config/issuers.js]),
    the verifier capability, the JharSeva online verifier, the offline
    signature verifier and the verifier factory
    ([src/services/verifiers/...]), with the properties of the
    specification stated and settled over it.

    Strings are [string]s read as sequences of code units in the range
    U+0000..U+00FF; every string operation below is the JavaScript one
    restricted to that range. *)

From Stdlib Require Import String Ascii ZArith NArith List Bool Lia.
From stdpp Require Import base option list strings gmap.
Import ListNotations.

Set Default Proof Using "Type".

(** ** JavaScript string primitives *)

Module JsString.

(** [String.prototype.toLowerCase] on one code unit: A-Z, and the Latin-1
    capitals U+00C0..U+00DE except the multiplication sign U+00D7. *)
Definition lowerChar (c : ascii) : ascii :=
  let n := N_of_ascii c in
  if ((65 <=? n) && (n <=? 90))%N then ascii_of_N (n + 32)
  else if ((192 <=? n) && (n <=? 222) && negb (n =? 215))%N
       then ascii_of_N (n + 32)
       else c.

Fixpoint toLowerCase (s : string) : string :=
  match s with
  | EmptyString => EmptyString
  | String c s' => String (lowerChar c) (toLowerCase s')
  end.

(** [s.startsWith(p)] *)
Fixpoint startsWith (p s : string) : bool :=
  match p, s with
  | EmptyString, _ => true
  | String a p', String b s' => Ascii.eqb a b && startsWith p' s'
  | String _ _, EmptyString => false
  end.

(** [s.slice(n)] *)
Fixpoint drop (n : nat) (s : string) : string :=
  match n, s with
  | O, _ => s
  | S n', String _ s' => drop n' s'
  | S _, EmptyString => EmptyString
  end.

(** [s.slice(0, n)] *)
Fixpoint take (n : nat) (s : string) : string :=
  match n, s with
  | O, _ => EmptyString
  | S n', String c s' => String c (take n' s')
  | S _, EmptyString => EmptyString
  end.

(** [s.endsWith(p)] *)
Definition endsWith (p s : string) : bool :=
  (String.length p <=? String.length s)%nat &&
  String.eqb (drop (String.length s - String.length p) s) p.

(** [s.replace(pat, repl)] with a string pattern: only the first
    occurrence of [pat] is replaced.  ([repl] holds no dollar sign at
    any call site, so it is inserted as it is.) *)
Fixpoint replace (pat repl s : string) : string :=
  if startsWith pat s then repl +:+ drop (String.length pat) s
  else match s with
       | EmptyString => EmptyString
       | String c s' => String c (replace pat repl s')
       end.

(** [s.replace(/<suffix>$/, "")] for a literal [suffix]; with [ci] the
    regular expression carries the [i] flag.  [suffix] is given in lower
    case when [ci] holds.  Without the [u] flag a code unit above U+007F
    never matches an ASCII letter, which is what comparing lowered code
    units gives on U+0000..U+00FF. *)
Definition stripSuffix (ci : bool) (suffix s : string) : string :=
  let n := (String.length s - String.length suffix)%nat in
  let tail := drop n s in
  if (String.length suffix <=? String.length s)%nat &&
     String.eqb (if ci then toLowerCase tail else tail) suffix
  then take n s else s.

Definition isAsciiLetter (c : ascii) : bool :=
  let n := N_of_ascii c in
  (((65 <=? n) && (n <=? 90)) || ((97 <=? n) && (n <=? 122)))%N.

Definition isLowerLetter (c : ascii) : bool :=
  let n := N_of_ascii c in ((97 <=? n) && (n <=? 122))%N.

Fixpoint allChars (p : ascii -> bool) (s : string) : bool :=
  match s with
  | EmptyString => true
  | String c s' => p c && allChars p s'
  end.

(** [/^[a-zA-Z]+$/.test(s)] *)
Definition onlyLetters (s : string) : bool :=
  match s with
  | EmptyString => false
  | String _ _ => allChars isAsciiLetter s
  end.

(** Truthiness of a string: the empty string is falsy. *)
Definition nonEmpty (s : string) : bool :=
  match s with EmptyString => false | String _ _ => true end.

(** The white space class [\s] on U+0000..U+00FF: TAB, LF, VT, FF, CR,
    SPACE and NO-BREAK SPACE. *)
Definition isSpace (c : ascii) : bool :=
  let n := N_of_ascii c in
  (((9 <=? n) && (n <=? 13)) || (n =? 32) || (n =? 160))%N.

Definition isQuote (c : ascii) : bool :=
  let n := N_of_ascii c in ((n =? 34) || (n =? 39))%N.

(** Skip a maximal run of white space. *)
Fixpoint skipSpaces (s : string) : string :=
  match s with
  | String c s' => if isSpace c then skipSpaces s' else s
  | EmptyString => EmptyString
  end.

(** Split off the maximal prefix of code units that are not quotes. *)
Fixpoint spanNonQuote (s : string) : string * string :=
  match s with
  | String c s' =>
      if isQuote c then (EmptyString, s)
      else let '(run, rest) := spanNonQuote s' in (String c run, rest)
  | EmptyString => (EmptyString, EmptyString)
  end.

(** [p] stripped from the front of [s], when [s] starts with it. *)
Definition stripPrefix (p s : string) : option string :=
  if startsWith p s then Some (drop (String.length p) s) else None.

End JsString.

(** ** Node's [path.basename] *)

Module Path.
Import JsString.

(** The variables of the loops of [posix.basename]; an index is [-1]
    while it is not set. *)
Record Scan : Type := mkScan {
  start : Z;
  end_ : Z;
  matchedSlash : bool;
  extIdx : Z;
  firstNonSlashEnd : Z
}.

Definition isSlash (c : ascii) : bool := Ascii.eqb c "/"%char.

(** [path.slice(start, end)] for indices that are not negative. *)
Definition slice (path : string) (start end_ : Z) : string :=
  take (Z.to_nat (end_ - start)) (drop (Z.to_nat start) path).

(** The loop of the branch with an extension, from the index [k - 1]
    down to [0]; reaching a separator after the component ends it. *)
Fixpoint scanExt (path suffix : string) (k : nat) (st : Scan) : Scan :=
  match k with
  | O => st
  | S i =>
      match String.get i path with
      | None => st
      | Some code =>
          if isSlash code then
            if negb (matchedSlash st) then
              {| start := Z.of_nat i + 1; end_ := end_ st;
                 matchedSlash := matchedSlash st; extIdx := extIdx st;
                 firstNonSlashEnd := firstNonSlashEnd st |}
            else scanExt path suffix i st
          else
            let st1 :=
              if (firstNonSlashEnd st =? -1)%Z then
                {| start := start st; end_ := end_ st;
                   matchedSlash := false; extIdx := extIdx st;
                   firstNonSlashEnd := Z.of_nat i + 1 |}
              else st in
            let st2 :=
              if (0 <=? extIdx st1)%Z then
                if match String.get (Z.to_nat (extIdx st1)) suffix with
                   | Some c => Ascii.eqb code c
                   | None => false
                   end
                then
                  {| start := start st1;
                     end_ := if (extIdx st1 - 1 =? -1)%Z
                             then Z.of_nat i else end_ st1;
                     matchedSlash := matchedSlash st1;
                     extIdx := extIdx st1 - 1;
                     firstNonSlashEnd := firstNonSlashEnd st1 |}
                else
                  {| start := start st1; end_ := firstNonSlashEnd st1;
                     matchedSlash := matchedSlash st1; extIdx := -1;
                     firstNonSlashEnd := firstNonSlashEnd st1 |}
              else st1 in
            scanExt path suffix i st2
      end
  end.

(** The loop of the branch without an extension. *)
Fixpoint scanPlain (path : string) (k : nat) (st : Scan) : Scan :=
  match k with
  | O => st
  | S i =>
      match String.get i path with
      | None => st
      | Some code =>
          if isSlash code then
            if negb (matchedSlash st) then
              {| start := Z.of_nat i + 1; end_ := end_ st;
                 matchedSlash := matchedSlash st; extIdx := extIdx st;
                 firstNonSlashEnd := firstNonSlashEnd st |}
            else scanPlain path i st
          else if (end_ st =? -1)%Z then
            scanPlain path i
              {| start := start st; end_ := Z.of_nat i + 1;
                 matchedSlash := false; extIdx := extIdx st;
                 firstNonSlashEnd := firstNonSlashEnd st |}
          else scanPlain path i st
      end
  end.

(** [path.basename(path, suffix)] of the POSIX variant of the module. *)
Definition basename (path suffix : string) : string :=
  let init := {| start := 0; end_ := -1; matchedSlash := true;
                 extIdx := Z.of_nat (String.length suffix) - 1;
                 firstNonSlashEnd := -1 |} in
  if (0 <? String.length suffix)%nat
     && (String.length suffix <=? String.length path)%nat
  then
    if String.eqb suffix path then EmptyString
    else
      let st := scanExt path suffix (String.length path) init in
      let end' :=
        if (start st =? end_ st)%Z then firstNonSlashEnd st
        else if (end_ st =? -1)%Z then Z.of_nat (String.length path)
        else end_ st in
      slice path (start st) end'
  else
    let st := scanPlain path (String.length path) init in
    if (end_ st =? -1)%Z then EmptyString
    else slice path (start st) (end_ st).

End Path.

(** ** Results and effects *)

(** A call either returns a value or throws an [Error] with a message. *)
Inductive outcome (A : Type) : Type :=
| Return (a : A)
| Throw (message : string).
Arguments Return {A} a.
Arguments Throw {A} message.

(** Computations over a mutable state [S] that may throw; a throw keeps
    the state reached so far, as a JavaScript exception keeps the heap. *)
Definition M (S A : Type) : Type := S -> outcome A * S.

Section Monad.
Context {S : Type}.

Definition ret {A} (a : A) : M S A := fun s => (Return a, s).

Definition bind {A B} (c : M S A) (k : A -> M S B) : M S B :=
  fun s => match c s with
           | (Return a, s') => k a s'
           | (Throw e, s') => (Throw e, s')
           end.

Definition throw {A} (e : string) : M S A := fun s => (Throw e, s).

(** [try { body } catch (error) { handler(error.message) }] *)
Definition tryCatch {A} (body : M S A) (handler : string -> M S A) : M S A :=
  fun s => match body s with
           | (Return a, s') => (Return a, s')
           | (Throw e, s') => handler e s'
           end.

(** A call into the environment whose result is already known. *)
Definition lift {A} (o : outcome A) : M S A := fun s => (o, s).

Definition gets {A} (f : S -> A) : M S A := fun s => (Return (f s), s).

Definition modify (f : S -> S) : M S unit := fun s => (Return tt, f s).

(** [xs.forEach(f)] *)
Fixpoint forEach {A} (f : A -> M S unit) (xs : list A) : M S unit :=
  match xs with
  | [] => ret tt
  | x :: xs' => bind (f x) (fun _ => forEach f xs')
  end.
End Monad.

(** [let* x := c in k] runs [c], binds its value and goes on with [k];
    a throw of [c] ends the block. *)
Notation "'let*' x ':=' c1 'in' c2" := (bind c1 (fun x => c2))
  (at level 10, x binder, c1 at level 100, c2 at level 200).

(** ** The verifier capability ([VerifierInterface.js]) *)

Module VerifierInterface.
Import JsString.

(** The state the base class keeps: the private title and the file name
    given to the constructor ([null] when none was given). *)
Record t : Type := mk {
  _title : option string;
  _filename : option string
}.

(** [constructor(config = {}, filename = null)] *)
Definition new (filename : option string) : t :=
  {| _title := None; _filename := filename |}.

(** [setTitle(title)] *)
Definition setTitle (title : string) (self : t) : t :=
  {| _title := Some title; _filename := _filename self |}.

Definition truthy (o : option string) : bool :=
  match o with Some s => nonEmpty s | None => false end.

(** [getTitle()]; [main] is [require.main.filename] when there is one. *)
Definition getTitle (main : option string) (self : t) : string :=
  if truthy (_title self) then default "" (_title self)
  else if truthy (_filename self)
       then Path.basename (default "" (_filename self)) ".js"
  else if truthy main then Path.basename (default "" main) ".js"
  else "UnknownVerifier".

(** The base [verify(credential)] only throws. *)
Definition verify {A} : outcome A :=
  Throw "verify() must be implemented by subclass".
End VerifierInterface.

(** ** The issuer registry ([config/issuers.js]) *)

Module Registry.
Import JsString.

(** [verifierNameToIssuerId(fileName)] *)
Definition verifierNameToIssuerId (fileName : string) : string :=
  let name := replace "Verifier" "" (replace ".js" "" fileName) in
  toLowerCase name.

(** [verifierNameToDisplayName(fileName)] *)
Definition verifierNameToDisplayName (fileName : string) : string :=
  replace "Verifier" "" (replace ".js" "" fileName).

(** One attempt of [/const\s+_title\s*=\s*[QUOTE]([^QUOTE]+)[QUOTE]/] at
    the front of [s], where QUOTE is either quote character; the value
    is capture group 1.  Every quantifier is followed by
    something its class excludes, so the greedy choice is the only one. *)
Definition matchTitleAt (s : string) : option string :=
  r1 ← stripPrefix "const" s;
  match r1 with
  | String c _ =>
      if isSpace c then
        r2 ← stripPrefix "_title" (skipSpaces r1);
        r3 ← stripPrefix "=" (skipSpaces r2);
        match skipSpaces r3 with
        | String q r4 =>
            if isQuote q then
              let '(run, rest) := spanNonQuote r4 in
              match run, rest with
              | String _ _, String _ _ => Some run
              | _, _ => None
              end
            else None
        | EmptyString => None
        end
      else None
  | EmptyString => None
  end.

(** [fileContent.match(...)]: the leftmost position where the expression
    matches. *)
Fixpoint titleMatch (fileContent : string) : option string :=
  match matchTitleAt fileContent with
  | Some t => Some t
  | None =>
      match fileContent with
      | EmptyString => None
      | String _ rest => titleMatch rest
      end
  end.

Record Issuer : Type := mkIssuer {
  id : string;
  name : string;
  title : string;
  type : string;
  description : string
}.

Inductive LogLine : Type :=
| Warn (text : string)
| Error (text : string).

(** What discovery reads from its surroundings.  What a module or a
    constructor throws is an [Error] here; [RegistryAny] has the
    surroundings, and the functions, for whatever is thrown. *)
Record World : Type := mkWorld {
  (** [fs.readdirSync(dir)] *)
  readdirSync : string -> outcome (list string);
  (** [fs.readFileSync(file, "utf8")] *)
  readFileSync : string -> outcome string;
  (** [new (require(file))()]: the instance built with no argument *)
  instantiate : string -> outcome VerifierInterface.t;
  (** [require.main.filename] *)
  mainFilename : option string
}.

(** The array [issuers] of the running function and the console. *)
Record St : Type := mkSt {
  issuers : list Issuer;
  console : list LogLine
}.

Definition push (i : Issuer) : M St unit :=
  modify (fun s => {| issuers := issuers s ++ [i]; console := console s |}).

Definition log (l : LogLine) : M St unit :=
  modify (fun s => {| issuers := issuers s; console := console s ++ [l] |}).

(** A function body with its own, initially empty, [issuers] array. *)
Definition withIssuers {A} (body : M St A) : M (list LogLine) A :=
  fun c => let '(r, s) := body {| issuers := []; console := c |} in
           (r, console s).

(** [path.join(dir, file)] for a directory and a file name. *)
Definition join (dir file : string) : string := dir +:+ "/" +:+ file.

Definition onlineVerifiersPath : string :=
  "src/services/verifiers/online-verifiers".
Definition offlineVerifiersPath : string :=
  "src/services/verifiers/offline-verifier".

Section Discovery.
Variable w : World.

(** The fallback of both discovery functions: the title constant of
    the source text, or the file name without its extension. *)
Definition extractTitle (dir file filenameDerivedTitle : string)
  : M St string :=
  tryCatch
    (let* fileContent := lift (readFileSync w (join dir file)) in
     ret (match titleMatch fileContent with
          | Some t => t
          | None => filenameDerivedTitle
          end))
    (fun readError =>
       let* _ := log (Warn ("Could not read file to extract title: "
                            +:+ readError)) in
       ret filenameDerivedTitle).

Definition couldNotInstantiate (file message : string) : LogLine :=
  Warn ("Warning: Could not instantiate verifier " +:+ file
        +:+ ", attempting to extract title from file: " +:+ message).

(** The body of the [forEach] callback of [discoverOnlineVerifiers], for
    modules that throw [Error]s: [error.message] is then a text.
    [RegistryAny.onlineEntry] is the callback for whatever is thrown. *)
Definition onlineEntry (file : string) : M St unit :=
  if endsWith "Verifier.js" file then
    tryCatch
      (let* verifierInstance :=
         lift (instantiate w (join onlineVerifiersPath file)) in
       let title :=
         VerifierInterface.getTitle (mainFilename w) verifierInstance in
       let id := verifierNameToIssuerId file in
       let filenameDerivedName := verifierNameToDisplayName file in
       let filenameDerivedTitle := Path.basename file ".js" in
       let displayName :=
         if negb (String.eqb title filenameDerivedTitle)
         then title else filenameDerivedName in
       push {| id := id; name := displayName; title := title;
               type := "online";
               description := title +:+ " credential verification" |})
      (fun error =>
         let* _ := log (couldNotInstantiate file error) in
         let id := verifierNameToIssuerId file in
         let filenameDerivedName := verifierNameToDisplayName file in
         let filenameDerivedTitle := Path.basename file ".js" in
         let* title :=
           extractTitle onlineVerifiersPath file filenameDerivedTitle in
         let displayName :=
           if negb (String.eqb title filenameDerivedTitle)
           then title else filenameDerivedName in
         push {| id := id; name := displayName; title := title;
                 type := "online";
                 description := title +:+ " credential verification" |})
  else ret tt.

(** [discoverOnlineVerifiers()] *)
Definition discoverOnlineVerifiers : M (list LogLine) (list Issuer) :=
  withIssuers
    (let* _ :=
       tryCatch
         (let* files := lift (readdirSync w onlineVerifiersPath) in
          forEach onlineEntry files)
         (fun error =>
            log (Error ("Error discovering online verifiers: "
                        +:+ error))) in
     gets issuers).

(** The body of the [forEach] callback of [discoverOfflineVerifiers], for
    modules that throw [Error]s; [RegistryAny.offlineEntry] is the
    callback for whatever is thrown. *)
Definition offlineEntry (file : string) : M St unit :=
  if endsWith "Verifier.js" file then
    tryCatch
      (let* verifierInstance :=
         lift (instantiate w (join offlineVerifiersPath file)) in
       let title :=
         VerifierInterface.getTitle (mainFilename w) verifierInstance in
       let filenameDerivedName := verifierNameToDisplayName file in
       let filenameDerivedTitle := Path.basename file ".js" in
       let displayName :=
         if negb (String.eqb title filenameDerivedTitle)
         then title else filenameDerivedName in
       push {| id := toLowerCase displayName; name := displayName;
               title := displayName; type := "offline";
               description :=
                 displayName +:+ " credential verification" |})
      (fun error =>
         let* _ := log (couldNotInstantiate file error) in
         let id := verifierNameToIssuerId file in
         let filenameDerivedName := verifierNameToDisplayName file in
         let filenameDerivedTitle := Path.basename file ".js" in
         let* title :=
           extractTitle offlineVerifiersPath file filenameDerivedTitle in
         let displayName :=
           if negb (String.eqb title filenameDerivedTitle)
           then title else filenameDerivedName in
         push {| id := toLowerCase displayName; name := displayName;
                 title := title; type := "offline";
                 description := title +:+ " credential verification" |})
  else ret tt.

(** [discoverOfflineVerifiers()] *)
Definition discoverOfflineVerifiers : M (list LogLine) (list Issuer) :=
  withIssuers
    (let* _ :=
       tryCatch
         (let* files := lift (readdirSync w offlineVerifiersPath) in
          forEach offlineEntry files)
         (fun error =>
            log (Error ("Error discovering offline verifiers: "
                        +:+ error))) in
     gets issuers).

(** [getAllIssuers()] *)
Definition getAllIssuers : M (list LogLine) (list Issuer) :=
  let* onlineIssuers := discoverOnlineVerifiers in
  let* offlineIssuers := discoverOfflineVerifiers in
  ret (onlineIssuers ++ offlineIssuers).

(** [getIssuersByType(type)] *)
Definition getIssuersByType (type : option string)
  : M (list LogLine) (list Issuer) :=
  match type with
  | Some "online" => discoverOnlineVerifiers
  | Some "offline" => discoverOfflineVerifiers
  | _ => getAllIssuers
  end.

(** [getIssuerById(id)] *)
Definition getIssuerById (id' : string)
  : M (list LogLine) (option Issuer) :=
  let* allIssuers := getAllIssuers in
  ret (List.find (fun issuer => String.eqb (id issuer) id') allIssuers).
End Discovery.
End Registry.

(** ** JavaScript values and objects *)

Module Js.
Import JsString.

(** Values of a JSON document, and [VInherited k] for the member [k]
    that every plain object inherits from [Object.prototype] (a
    function, or the prototype object itself for [__proto__]). *)
#[warnings="-register-all"]
Inductive val : Type :=
| VUndefined
| VNull
| VBool (b : bool)
| VNum (n : Z)
| VStr (s : string)
| VArr (items : list val)
| VObj (fields : list (string * val))
| VInherited (name : string).

(** [!!v] *)
Definition truthy (v : val) : bool :=
  match v with
  | VUndefined | VNull => false
  | VBool b => b
  | VNum n => negb (n =? 0)%Z
  | VStr s => nonEmpty s
  | VArr _ | VObj _ | VInherited _ => true
  end.

(** The property names of [Object.prototype]. *)
Definition objectPrototypeNames : list string :=
  [ "constructor"; "__defineGetter__"; "__defineSetter__";
    "hasOwnProperty"; "__lookupGetter__"; "__lookupSetter__";
    "isPrototypeOf"; "propertyIsEnumerable"; "toString"; "valueOf";
    "__proto__"; "toLocaleString" ].

Definition inObjectPrototype (k : string) : bool :=
  existsb (String.eqb k) objectPrototypeNames.

(** [obj[k]] on a plain object with own properties [obj]: the own
    property, else the inherited member, else [undefined]. *)
Definition get {V} (inj : V -> val) (obj : gmap string V) (k : string) : val :=
  match obj !! k with
  | Some v => inj v
  | None => if inObjectPrototype k then VInherited k else VUndefined
  end.

(** The host's clock and date parser. *)
Record Host : Type := mkHost {
  (** [new Date().getTime()] *)
  now : Z;
  (** [Date.parse(s)], [None] for [NaN] *)
  Date_parse : string -> option Z;
  (** the time value of [new Date(v)] for an object [v], whose
      conversion to a primitive is the host's *)
  Date_of_object : val -> outcome (option Z)
}.

(** The largest time value of a [Date]. *)
Definition maxTime : Z := 8640000000000000.

(** The time value of [new Date(v)]; [None] is an invalid date. *)
Definition newDate (h : Host) (v : val) : outcome (option Z) :=
  match v with
  | VUndefined => Return None
  | VNull => Return (Some 0%Z)
  | VBool b => Return (Some (if b then 1 else 0)%Z)
  | VNum n =>
      Return (if (Z.abs n <=? maxTime)%Z then Some n else None)
  | VStr s => Return (Date_parse h s)
  | VArr _ | VObj _ | VInherited _ => Date_of_object h v
  end.
End Js.

(** ** The result of a verification *)

Record ErrorEntry : Type := mkErrorEntry {
  error : Js.val;
  raw : string
}.

(** [errors] is [None] when the object has no [errors] key. *)
Record VerificationResult : Type := mkResult {
  success : bool;
  message : string;
  errors : option (list ErrorEntry)
}.

(** A credential: [None] for [null] or [undefined], else the own
    properties of the document. *)
Definition Credential : Type := option (gmap string Js.val).

(** ** The offline signature verifier *)

Module SignatureVerifier.

(** [const _title = ...] of the module. *)
Definition _title : string := "sunbird-rc".

(** [constructor(config = {})], in a module whose [__filename] is
    [filename]. *)
Definition new (filename : string) : VerifierInterface.t :=
  let self := VerifierInterface.new (Some filename) in
  if JsString.nonEmpty _title
  then VerifierInterface.setTitle _title self
  else self.

(** The stubbed check. *)
Definition isValid : bool := false.

(** [verify(credential)] *)
Definition verify (credential : Credential) : VerificationResult :=
  if isValid then
    {| success := true;
       message := "Credential verified using signature.";
       errors := None |}
  else
    {| success := false;
       message := "Credential verification using signature failed.";
       errors := None |}.
End SignatureVerifier.

(** ** The JharSeva online verifier *)

Module JharSevaVerifier.
Import JsString.

Record t : Type := mk {
  apiEndpoint : string;
  apiToken : string;
  expiryField : string
}.

(** [constructor()], reading [process.env]. *)
Definition new (env : gmap string string) : outcome t :=
  let apiEndpoint := env !! "JHARSEVA_VERIFICATION_API" in
  let apiToken := env !! "JHARSEVA_VERIFICATION_API_TOKEN" in
  let expiryField :=
    if VerifierInterface.truthy (env !! "JHARSEVA_EXPIRY_FIELD")
    then default "" (env !! "JHARSEVA_EXPIRY_FIELD")
    else "validUntil" in
  if negb (VerifierInterface.truthy apiEndpoint) then
    Throw "JHARSEVA_VERIFICATION_API environment variable is not set."
  else if negb (VerifierInterface.truthy apiToken) then
    Throw "JHARSEVA_VERIFICATION_API_TOKEN environment variable is not set."
  else
    Return {| apiEndpoint := default "" apiEndpoint;
              apiToken := default "" apiToken;
              expiryField := expiryField |}.

(** The own properties of [errorTranslator]. *)
Definition errorTranslator : gmap string string :=
  <["Invalid credential" :=
      "The credential format is invalid or incomplete."]>
  (<["Verification failed" :=
      "The credential could not be verified. Please ensure it is valid and not expired."]>
  (<["Service unavailable" :=
      "The JharSeva verification service is temporarily unavailable. Please try again later."]>
  (<["Invalid signature" :=
      "The credential's signature is invalid or has been tampered with."]>
  (<["Expired credential" :=
      "The credential has expired and is no longer valid."]> ∅)))).

Record ExpiryCheck : Type := mkExpiryCheck {
  isValid : bool;
  checkError : option string
}.

(** [checkExpiry(credential)] *)
Definition checkExpiry (self : t) (h : Js.Host) (credential : Credential)
  : ExpiryCheck :=
  let body : outcome ExpiryCheck :=
    match credential with
    | None =>
        Return {| isValid := false;
                  checkError :=
                    Some "Invalid credential structure: missing credential data" |}
    | Some fields =>
        let validUpto := Js.get (fun v => v) fields (expiryField self) in
        if negb (Js.truthy validUpto) then
          Return {| isValid := true; checkError := None |}
        else
          match Js.newDate h validUpto with
          | Throw e => Throw e
          | Return None =>
              Return {| isValid := false;
                        checkError := Some "Invalid expiry date format" |}
          | Return (Some expiryDate) =>
              if (Js.now h >? expiryDate)%Z then
                Return {| isValid := false;
                          checkError :=
                            Some "The credential has expired and is no longer valid." |}
              else Return {| isValid := true; checkError := None |}
          end
    end in
  match body with
  | Return r => r
  | Throw e =>
      {| isValid := false;
         checkError := Some ("Error checking credential expiry: " +:+ e) |}
  end.

(** An entry of the remote [error] field: an object, or any other value
    that is not [null] or [undefined]; [errMessage] is its [message]
    property, a string when there is one.  [ResponseAny] has the
    translation for entries whose message is any value. *)
Record ErrObj : Type := mkErrObj { errMessage : option string }.

(** The value of a remote [error] field. *)
Inductive ErrorField : Type :=
| Absent                                 (* no such field: [undefined] *)
| Falsy                                  (* [null], [false], [0] or the empty string *)
| ErrorArray (items : list (option ErrObj))  (* [None]: a [null] item *)
| ErrorOther (e : ErrObj).               (* any other truthy value *)

(** The response object of [axios]: its [data], when that is an object,
    with the [error] field of it. *)
Record Response : Type := mkResponse { data : option ErrorField }.

(** [response?.data?.error] *)
Definition errorOf (response : option Response) : ErrorField :=
  match response with
  | Some r => match data r with Some e => e | None => Absent end
  | None => Absent
  end.

(** [this.errorTranslator[key]] *)
Definition translate (key : string) : Js.val :=
  Js.get Js.VStr errorTranslator key.

(** The arrow function [pushError] of [translateResponse]; reading
    [message] of [null] throws. *)
Definition pushError (errObj : option ErrObj) : outcome ErrorEntry :=
  match errObj with
  | None => Throw "Cannot read properties of null (reading 'message')"
  | Some e =>
      let translated :=
        translate (default "undefined" (errMessage e)) in
      Return
        {| error :=
             if Js.truthy translated then translated
             else Js.VStr "An unknown error occurred during verification.";
           raw :=
             if VerifierInterface.truthy (errMessage e)
             then default "" (errMessage e)
             else "An unknown error occurred" |}
  end.

(** [error.map(pushError)] *)
Fixpoint mapErrors (items : list (option ErrObj))
  : outcome (list ErrorEntry) :=
  match items with
  | [] => Return []
  | e :: rest =>
      match pushError e with
      | Throw m => Throw m
      | Return x =>
          match mapErrors rest with
          | Throw m => Throw m
          | Return xs => Return (x :: xs)
          end
      end
  end.

(** The test [error && (Array.isArray(error) ? error.length > 0 : true)]
    of [translateResponse]. *)
Definition errorPresent (error : ErrorField) : bool :=
  match error with
  | Absent | Falsy => false
  | ErrorArray items => (0 <? length items)%nat
  | ErrorOther _ => true
  end.

(** [translateResponse(response)] *)
Definition translateResponse (response : option Response)
  : outcome VerificationResult :=
  let error := errorOf response in
  let formatted : outcome (list ErrorEntry) :=
    if errorPresent error then
      match error with
      | ErrorArray items => mapErrors items
      | ErrorOther e =>
          match pushError (Some e) with
          | Throw m => Throw m
          | Return x => Return [x]
          end
      | Absent | Falsy => Return []
      end
    else Return [] in
  match formatted with
  | Throw m => Throw m
  | Return formattedErrors =>
      if (0 <? length formattedErrors)%nat then
        Return {| success := false;
                  message := "Credential verification failed.";
                  errors := Some formattedErrors |}
      else
        Return {| success := true;
                  message := "Credential verified successfully.";
                  errors := None |}
  end.

(** A call of [axios.post]. *)
Record Request : Type := mkRequest {
  url : string;
  payload : Credential;
  authorization : string;
  contentType : string
}.

(** The network: what [axios.post] resolves to for a request, or the
    failure it throws (no answer, a time-out, a status outside 2xx). *)
Definition Network : Type := Request -> outcome (option Response).

(** [axios.post(...)]: the call is recorded. *)
Definition post (net : Network) (r : Request)
  : M (list Request) (option Response) :=
  fun calls => (net r, calls ++ [r]).

(** [verify(credential)] *)
Definition verify (self : t) (h : Js.Host) (net : Network)
    (credential : Credential) : M (list Request) VerificationResult :=
  tryCatch
    (let expiryCheck := checkExpiry self h credential in
     if negb (isValid expiryCheck) then
       ret {| success := false;
              message := "Credential verification failed.";
              errors :=
                Some [ {| error :=
                            match checkError expiryCheck with
                            | Some e => Js.VStr e
                            | None => Js.VUndefined
                            end;
                          raw := "Credential expiration check failed" |} ] |}
     else
       let* response :=
         post net {| url := apiEndpoint self;
                     payload := credential;
                     authorization := "Bearer " +:+ apiToken self;
                     contentType := "application/json" |} in
       lift (translateResponse response))
    (fun error =>
       ret {| success := false;
              message := "Verification API error";
              errors :=
                Some [ {| error := Js.VStr error; raw := error |} ] |}).
End JharSevaVerifier.

(** ** The variants behind the capability *)

Module Variants.
Import JharSevaVerifier.

Inductive t : Type :=
| Signature
| JharSeva (self : JharSevaVerifier.t).

(** [verifier.verify(credential)], dispatched on the class. *)
Definition verify (v : t) (h : Js.Host) (net : Network)
    (credential : Credential) : M (list Request) VerificationResult :=
  match v with
  | Signature => ret (SignatureVerifier.verify credential)
  | JharSeva self => JharSevaVerifier.verify self h net credential
  end.

(** The request [verify] of the JharSeva verifier sends. *)
Definition requestOf (self : JharSevaVerifier.t) (credential : Credential)
  : Request :=
  {| url := apiEndpoint self;
     payload := credential;
     authorization := "Bearer " +:+ apiToken self;
     contentType := "application/json" |}.

(** The branches a call of [verify] can take, read off the control
    flow: the stub's rejection, the rejection by the expiry check, the
    failure thrown by the network call, and a response with or without
    reported errors. *)
Inductive Path : Type :=
| StubRejects
| ExpiryRejects
| TransportFails
| RemoteReports
| RemoteAccepts.

Definition pathOf (v : t) (h : Js.Host) (net : Network)
    (credential : Credential) : Path :=
  match v with
  | Signature => StubRejects
  | JharSeva self =>
      if negb (isValid (checkExpiry self h credential)) then ExpiryRejects
      else match net (requestOf self credential) with
           | Throw _ => TransportFails
           | Return response =>
               if errorPresent (errorOf response) then RemoteReports
               else RemoteAccepts
           end
  end.

(** The branches on which the code builds an [errors] array. *)
Definition errorProducing (p : Path) : bool :=
  match p with
  | ExpiryRejects | TransportFails | RemoteReports => true
  | StubRejects | RemoteAccepts => false
  end.

(** The [errors] field is there and holds an entry. *)
Definition hasErrors (r : VerificationResult) : Prop :=
  exists l, errors r = Some l /\ l <> [].

(** The result of the [catch] block of [verify]. *)
Definition apiError (e : string) : VerificationResult :=
  {| success := false;
     message := "Verification API error";
     errors := Some [ {| error := Js.VStr e; raw := e |} ] |}.

(** The entry the specification describes for a remote error: the
    translation of its phrase by the dictionary, or the generic
    message, and the phrase itself, or the fixed text when there is
    none. *)
Definition entryFor (e : ErrObj) : ErrorEntry :=
  {| error :=
       Js.VStr (match errMessage e with
                | Some m => default "An unknown error occurred during verification."
                              (errorTranslator !! m)
                | None => "An unknown error occurred during verification."
                end);
     raw :=
       match errMessage e with
       | Some m => if JsString.nonEmpty m then m else "An unknown error occurred"
       | None => "An unknown error occurred"
       end |}.

(** The entry as the specification states it for a phrase [m]: the
    translation or the generic message, and the phrase kept as it is. *)
Definition statedEntry (m : string) : ErrorEntry :=
  {| error :=
       Js.VStr (default "An unknown error occurred during verification."
                  (errorTranslator !! m));
     raw := m |}.

(** The result [verify] returns once the request is sent. *)
Definition remoteResult (net : Network) (r : Request) : VerificationResult :=
  match net r with
  | Throw e => apiError e
  | Return response =>
      match translateResponse response with
      | Return result => result
      | Throw e => apiError e
      end
  end.

(** The result of [verify] for a credential that has expired. *)
Definition expiredResult : VerificationResult :=
  {| success := false;
     message := "Credential verification failed.";
     errors :=
       Some [ {| error := Js.VStr "The credential has expired and is no longer valid.";
                 raw := "Credential expiration check failed" |} ] |}.

(** The phrase of a remote error names no member of
    [Object.prototype]. *)
Definition phraseNotInherited (e : ErrObj) : bool :=
  match errMessage e with
  | Some m => negb (Js.inObjectPrototype m)
  | None => true
  end.
End Variants.

(** ** The verifier factory ([VerifierFactory.getVerifier]) *)

Module VerifierFactory.
Import JsString.

(** The configuration object: a key is [None] when it is missing. *)
Record Config : Type := mkConfig {
  method : option string;
  issuerName : option string
}.

(** The verifier the factory hands out: an instance of the class of the
    online verifier module [className], or of [SignatureVerifier], each
    built from the configuration. *)
Inductive Verifier : Type :=
| Online (className : string) (config : Config)
| Offline (config : Config).

Record World : Type := mkWorld {
  (** [fs.readdirSync] of the directory [online-verifiers] *)
  readdirSync : outcome (list string);
  (** [new (require("./online-verifiers/" + className))(config)] *)
  construct : string -> Config -> outcome unit;
  (** [process.env.NODE_ENV] *)
  NODE_ENV : option string
}.

(** The base name the lookup compares: the callback of [files.find]. *)
Definition baseName (file : string) : string :=
  toLowerCase (stripSuffix true "verifier" (stripSuffix true ".js" file)).

(** [getVerifier(config = {})]; the state is the console.  What the
    constructor throws is an [Error] here, so [err.message] is a text;
    [FactoryAny.getVerifier] is the function for whatever is thrown. *)
Definition getVerifier (w : World) (config : option Config)
  : M (list string) Verifier :=
  let config := default {| method := None; issuerName := None |} config in
  let method := default "online" (method config) in
  let issuerName := issuerName config in
  if String.eqb method "online" then
    if negb (VerifierInterface.truthy issuerName) then
      throw "issuerName is required for online verification"
    else
      let issuerName := default "" issuerName in
      tryCatch
        (if negb (onlyLetters issuerName) then
           throw "Invalid verifier name format"
         else
           let* files := lift (readdirSync w) in
           let normalizedIssuerName := toLowerCase issuerName in
           let matchingFile :=
             List.find
               (fun file => String.eqb (baseName file) normalizedIssuerName)
               files in
           match matchingFile with
           | None =>
               throw ("No verifier file found for issuer: " +:+ issuerName)
           | Some matchingFile =>
               let className := stripSuffix false ".js" matchingFile in
               let* _ := lift (construct w className config) in
               ret (Online className config)
           end)
        (fun err =>
           let* _ :=
             if negb (bool_decide (NODE_ENV w = Some "production"))
             then modify (fun c => c ++ ["Error loading verifier: " +:+ err])
             else ret tt in
           throw ("Unknown online verifier: " +:+ issuerName))
  else if String.eqb method "offline" then
    ret (Offline config)
  else
    throw ("Unknown verification method: " +:+ method).

End VerifierFactory.

(** ** Reading the registry functionally

    The values the discovery functions compute, written as functions of
    the surroundings; the properties relate the code to them. *)

Module RegistrySpec.
Import JsString Registry.

(** The id as the comment of [verifierNameToIssuerId] describes it: the
    extension and the [Verifier] suffix taken off the end of the name,
    the rest in lower case. *)
Definition issuerIdBySuffix (fileName : string) : string :=
  toLowerCase (stripSuffix false "Verifier" (stripSuffix false ".js" fileName)).

(** No occurrence of [pat] in [b +:+ suffix] starts inside [b]. *)
Fixpoint clearBefore (pat b suffix : string) : bool :=
  match b with
  | EmptyString => true
  | String _ b' =>
      negb (startsWith pat (b +:+ suffix)) && clearBefore pat b' suffix
  end.

(** The file names of a listing that pass the test of the callback. *)
Definition registered (listing : outcome (list string)) : list string :=
  match listing with
  | Return files => List.filter (endsWith "Verifier.js") files
  | Throw _ => []
  end.

(** What a listing writes to the console. *)
Definition listingLogs (prefix : string) (listing : outcome (list string))
    (logsOf : string -> list LogLine) : list LogLine :=
  match listing with
  | Return _ => flat_map logsOf (registered listing)
  | Throw e => [Error (prefix +:+ e)]
  end.

Section WithWorld.
Variable w : World.

(** The title the fallback settles on. *)
Definition extractedTitle (dir file : string) : string :=
  match readFileSync w (join dir file) with
  | Return content =>
      match titleMatch content with
      | Some t => t
      | None => Path.basename file ".js"
      end
  | Throw _ => Path.basename file ".js"
  end.

Definition extractLogs (dir file : string) : list LogLine :=
  match readFileSync w (join dir file) with
  | Return _ => []
  | Throw e => [Warn ("Could not read file to extract title: " +:+ e)]
  end.

Definition displayNameFor (title file : string) : string :=
  if negb (String.eqb title (Path.basename file ".js"))
  then title else verifierNameToDisplayName file.

Definition resolvedTitle (dir file : string) : string :=
  match instantiate w (join dir file) with
  | Return inst => VerifierInterface.getTitle (mainFilename w) inst
  | Throw _ => extractedTitle dir file
  end.

Definition onlineIssuerOf (file : string) : Issuer :=
  let title := resolvedTitle onlineVerifiersPath file in
  {| id := verifierNameToIssuerId file;
     name := displayNameFor title file;
     title := title;
     type := "online";
     description := title +:+ " credential verification" |}.

Definition offlineIssuerOf (file : string) : Issuer :=
  let title := resolvedTitle offlineVerifiersPath file in
  let displayName := displayNameFor title file in
  match instantiate w (join offlineVerifiersPath file) with
  | Return _ =>
      {| id := toLowerCase displayName; name := displayName;
         title := displayName; type := "offline";
         description := displayName +:+ " credential verification" |}
  | Throw _ =>
      {| id := toLowerCase displayName; name := displayName;
         title := title; type := "offline";
         description := title +:+ " credential verification" |}
  end.

(** What handling one registered file writes to the console. *)
Definition entryLogs (dir file : string) : list LogLine :=
  match instantiate w (join dir file) with
  | Return _ => []
  | Throw e => couldNotInstantiate file e :: extractLogs dir file
  end.
End WithWorld.
End RegistrySpec.

(** ** Sample surroundings *)

Module Samples.
Import Registry.

Definition signatureModule : string :=
  join offlineVerifiersPath "SignatureVerifier.js".

(** The repository as it is deployed without the JharSeva settings: the
    signature verifier loads, the JharSeva verifier does not, and its
    source holds no title constant. *)
Definition deployed : World :=
  {| readdirSync := fun dir =>
       if String.eqb dir onlineVerifiersPath
       then Return ["JharSevaVerifier.js"; "README.md"]
       else if String.eqb dir offlineVerifiersPath
            then Return ["SignatureVerifier.js"]
            else Throw "ENOENT: no such file or directory";
     readFileSync := fun _ => Return "class JharSevaVerifier {}";
     instantiate := fun file =>
       if String.eqb file signatureModule
       then Return (SignatureVerifier.new file)
       else Throw "JHARSEVA_VERIFICATION_API environment variable is not set.";
     mainFilename := Some "/app/src/server.js" |}.

(** Surroundings in which the online directory cannot be listed and the
    signature verifier cannot be built. *)
Definition degraded : World :=
  {| readdirSync := fun dir =>
       if String.eqb dir offlineVerifiersPath
       then Return ["SignatureVerifier.js"]
       else Throw "ENOENT: no such file or directory";
     readFileSync := fun _ => Return "const _title = 'sunbird-rc';";
     instantiate := fun _ => Throw "Cannot find module";
     mainFilename := None |}.

(** An online directory with two verifiers whose classes load. *)
Definition factory : VerifierFactory.World :=
  {| VerifierFactory.readdirSync :=
       Return ["AcmeVerifier.js"; "JharSevaVerifier.js"];
     VerifierFactory.construct := fun _ _ => Return tt;
     VerifierFactory.NODE_ENV := Some "production" |}.

(** The same directory outside production. *)
Definition development : VerifierFactory.World :=
  {| VerifierFactory.readdirSync :=
       Return ["AcmeVerifier.js"; "JharSevaVerifier.js"];
     VerifierFactory.construct := fun _ _ => Return tt;
     VerifierFactory.NODE_ENV := None |}.

Definition online (name : string) : VerifierFactory.Config :=
  {| VerifierFactory.method := Some "online";
     VerifierFactory.issuerName := Some name |}.

(** A verifier with the default expiry field, a clock in 2023, a date
    parser that knows one date, and a remote end that accepts. *)
Definition jharseva : JharSevaVerifier.t :=
  {| JharSevaVerifier.apiEndpoint := "https://jharseva.example/verify";
     JharSevaVerifier.apiToken := "token";
     JharSevaVerifier.expiryField := "validUntil" |}.

Definition host : Js.Host :=
  {| Js.now := 1700000000000;
     Js.Date_parse := fun s =>
       if String.eqb s "2020-01-01T00:00:00Z" then Some 1577836800000%Z
       else None;
     Js.Date_of_object := fun _ => Return None |}.

Definition accepting : JharSevaVerifier.Network :=
  fun _ => Return (Some {| JharSevaVerifier.data := Some JharSevaVerifier.Absent |}).

Definition remoteErrors (m1 m2 : string) : option JharSevaVerifier.Response :=
  Some {| JharSevaVerifier.data :=
            Some (JharSevaVerifier.ErrorArray
                    [ Some {| JharSevaVerifier.errMessage := Some m1 |};
                      Some {| JharSevaVerifier.errMessage := Some m2 |} ]) |}.
End Samples.

(** ** Further notions *)

Module More.
Import JsString.

(** No quote character, single or double, in [s]. *)
Definition quoteFree (s : string) : bool :=
  allChars (fun c => negb (isQuote c)) s.

(** [name +:+ " = " +:+ QUOTE value QUOTE rest], the quotes being [q1]
    and [q2]. *)
Definition titleDeclaration (q1 q2 : ascii) (value rest : string) : string :=
  "const _title = " +:+ String q1 (value +:+ String q2 rest).

(** The console after the [catch] block of [getVerifier] has run on an
    error with the message [cause]: a line is written unless [NODE_ENV]
    is [production]. *)
Definition consoleAfter (w : VerifierFactory.World) (c : list string)
    (cause : string) : list string :=
  if bool_decide (VerifierFactory.NODE_ENV w = Some "production") then c
  else c ++ ["Error loading verifier: " +:+ cause].

(** The result of [verify] when the expiry check rejects with the
    message [reason]. *)
Definition rejected (reason : string) : VerificationResult :=
  {| success := false;
     message := "Credential verification failed.";
     errors :=
       Some [ {| error := Js.VStr reason;
                 raw := "Credential expiration check failed" |} ] |}.

(** The result of a translation that finds the errors [entries]. *)
Definition failed (entries : list ErrorEntry) : VerificationResult :=
  {| success := false;
     message := "Credential verification failed.";
     errors := Some entries |}.

(** The result of a translation that finds no error. *)
Definition verified : VerificationResult :=
  {| success := true;
     message := "Credential verified successfully.";
     errors := None |}.

(** The message of the error thrown on reading [message] of [null]. *)
Definition nullMessage : string :=
  "Cannot read properties of null (reading 'message')".
End More.

(** ** Further sample surroundings *)

Module MoreSamples.
Import Registry.

(** The repository with the JharSeva settings in place: both classes
    load.  The JharSeva verifier calls the base constructor without a
    file name and sets no title. *)
Definition configured : World :=
  {| readdirSync := fun dir =>
       if String.eqb dir onlineVerifiersPath
       then Return ["JharSevaVerifier.js"; ".gitkeep"]
       else if String.eqb dir offlineVerifiersPath
            then Return ["SignatureVerifier.js"]
            else Throw "ENOENT: no such file or directory";
     readFileSync := fun _ => Throw "EACCES: permission denied";
     instantiate := fun file =>
       if String.eqb file Samples.signatureModule
       then Return (SignatureVerifier.new file)
       else Return (VerifierInterface.new None);
     mainFilename := Some "/app/src/server.js" |}.

(** An online directory whose only class cannot be built, outside
    production. *)
Definition unconfigured : VerifierFactory.World :=
  {| VerifierFactory.readdirSync := Return ["JharSevaVerifier.js"];
     VerifierFactory.construct := fun _ _ =>
       Throw "JHARSEVA_VERIFICATION_API environment variable is not set.";
     VerifierFactory.NODE_ENV := Some "development" |}.

(** A remote end that cannot be reached. *)
Definition unreachable : JharSevaVerifier.Network :=
  fun _ => Throw "connect ECONNREFUSED 127.0.0.1:443".

(** A remote end that answers with an error array holding [null]. *)
Definition malformed : JharSevaVerifier.Network :=
  fun _ => Return (Some {| JharSevaVerifier.data :=
                             Some (JharSevaVerifier.ErrorArray [None]) |}).

(** Settings with both required values and no expiry field name. *)
Definition settings : gmap string string :=
  <["JHARSEVA_VERIFICATION_API" := "https://jharseva.example/verify"]>
  (<["JHARSEVA_VERIFICATION_API_TOKEN" := "token"]> ∅).

(** A credential without an expiry field. *)
Definition plain : gmap string Js.val := {[ "id" := Js.VStr "urn:uuid:1" ]}.
End MoreSamples.

(** ** Code that may throw any value

    A module that is loaded and a constructor that is called may throw
    what they like, [null] and [undefined] included.  The functions above
    are stated for surroundings in which what is thrown is an [Error];
    the modules below drop that restriction for the registry and the
    factory, where a [catch] block reads the [message] of what it
    caught. *)

Module AnyThrow.

(** What a [throw] statement threw: a value whose [message] property
    prints as [message] (an [Error]; for a value without that property
    the text is [undefined]), or [null], or [undefined]. *)
Inductive thrown : Type :=
| ErrorValue (message : string)
| NullValue
| UndefinedValue.

Inductive attempt (A : Type) : Type :=
| Done (a : A)
| Thrown (e : thrown).
Arguments Done {A} a.
Arguments Thrown {A} e.

(** A call that throws [Error]s only. *)
Definition ofOutcome {A} (o : outcome A) : attempt A :=
  match o with
  | Return a => Done a
  | Throw m => Thrown (ErrorValue m)
  end.

Definition MT (S A : Type) : Type := S -> attempt A * S.

Definition retT {S A} (a : A) : MT S A := fun s => (Done a, s).

Definition bindT {S A B} (c : MT S A) (k : A -> MT S B) : MT S B :=
  fun s => match c s with
           | (Done a, s') => k a s'
           | (Thrown e, s') => (Thrown e, s')
           end.

Definition raise {S A} (e : thrown) : MT S A := fun s => (Thrown e, s).

(** [try { body } catch (error) { handler(error) }] *)
Definition tryCatchT {S A} (body : MT S A) (handler : thrown -> MT S A)
  : MT S A :=
  fun s => match body s with
           | (Done a, s') => (Done a, s')
           | (Thrown e, s') => handler e s'
           end.

Definition liftT {S A} (o : attempt A) : MT S A := fun s => (o, s).

Definition getsT {S A} (f : S -> A) : MT S A := fun s => (Done (f s), s).

Definition modifyT {S} (f : S -> S) : MT S unit := fun s => (Done tt, f s).

Fixpoint forEachT {S A} (f : A -> MT S unit) (xs : list A) : MT S unit :=
  match xs with
  | [] => retT tt
  | x :: xs' => bindT (f x) (fun _ => forEachT f xs')
  end.

Definition nullMessage : string :=
  "Cannot read properties of null (reading 'message')".
Definition undefinedMessage : string :=
  "Cannot read properties of undefined (reading 'message')".

(** [error.message]: reading a property of [null] or [undefined] throws
    a [TypeError]. *)
Definition messageOf {S} (error : thrown) : MT S string :=
  match error with
  | ErrorValue m => retT m
  | NullValue => raise (ErrorValue nullMessage)
  | UndefinedValue => raise (ErrorValue undefinedMessage)
  end.

Definition isNullish (e : thrown) : bool :=
  match e with
  | ErrorValue _ => false
  | NullValue | UndefinedValue => true
  end.
End AnyThrow.

Notation "'let+' x ':=' c1 'in' c2" := (AnyThrow.bindT c1 (fun x => c2))
  (at level 10, x binder, c1 at level 100, c2 at level 200).

(** ** The registry, whatever a module throws *)

Module RegistryAny.
Import JsString AnyThrow.
Import Registry (Issuer, LogLine, Warn, Error, St, issuers, console,
                 id, name, title, type, description,
                 verifierNameToIssuerId, verifierNameToDisplayName,
                 titleMatch, join, onlineVerifiersPath, offlineVerifiersPath,
                 couldNotInstantiate).

Record World : Type := mkWorld {
  (** [fs.readdirSync(dir)] *)
  readdirSync : string -> outcome (list string);
  (** [fs.readFileSync(file, "utf8")] *)
  readFileSync : string -> outcome string;
  (** [new (require(file))()] *)
  instantiate : string -> attempt VerifierInterface.t;
  (** [require.main.filename] *)
  mainFilename : option string
}.

Definition push (i : Issuer) : MT St unit :=
  modifyT (fun s => {| issuers := issuers s ++ [i]; console := console s |}).

Definition log (l : LogLine) : MT St unit :=
  modifyT (fun s => {| issuers := issuers s; console := console s ++ [l] |}).

Definition withIssuers {A} (body : MT St A) : MT (list LogLine) A :=
  fun c => let '(r, s) := body {| issuers := []; console := c |} in
           (r, console s).

Section Discovery.
Variable w : World.

(** The inner [try] of the fallback, around [fs.readFileSync]. *)
Definition extractTitle (dir file filenameDerivedTitle : string)
  : MT St string :=
  tryCatchT
    (let+ fileContent := liftT (ofOutcome (readFileSync w (join dir file))) in
     retT (match titleMatch fileContent with
           | Some t => t
           | None => filenameDerivedTitle
           end))
    (fun readError =>
       let+ message := messageOf readError in
       let+ _ := log (Warn ("Could not read file to extract title: "
                            +:+ message)) in
       retT filenameDerivedTitle).

(** The callback of [forEach] in [discoverOnlineVerifiers]; the
    arguments of [console.warn] are evaluated before it is called. *)
Definition onlineEntry (file : string) : MT St unit :=
  if endsWith "Verifier.js" file then
    tryCatchT
      (let+ verifierInstance :=
         liftT (instantiate w (join onlineVerifiersPath file)) in
       let title :=
         VerifierInterface.getTitle (mainFilename w) verifierInstance in
       let id := verifierNameToIssuerId file in
       let filenameDerivedName := verifierNameToDisplayName file in
       let filenameDerivedTitle := Path.basename file ".js" in
       let displayName :=
         if negb (String.eqb title filenameDerivedTitle)
         then title else filenameDerivedName in
       push {| id := id; name := displayName; title := title;
               type := "online";
               description := title +:+ " credential verification" |})
      (fun error =>
         let+ message := messageOf error in
         let+ _ := log (couldNotInstantiate file message) in
         let id := verifierNameToIssuerId file in
         let filenameDerivedName := verifierNameToDisplayName file in
         let filenameDerivedTitle := Path.basename file ".js" in
         let+ title :=
           extractTitle onlineVerifiersPath file filenameDerivedTitle in
         let displayName :=
           if negb (String.eqb title filenameDerivedTitle)
           then title else filenameDerivedName in
         push {| id := id; name := displayName; title := title;
                 type := "online";
                 description := title +:+ " credential verification" |})
  else retT tt.

(** [discoverOnlineVerifiers()] *)
Definition discoverOnlineVerifiers : MT (list LogLine) (list Issuer) :=
  withIssuers
    (let+ _ :=
       tryCatchT
         (let+ files := liftT (ofOutcome (readdirSync w onlineVerifiersPath)) in
          forEachT onlineEntry files)
         (fun error =>
            let+ message := messageOf error in
            log (Error ("Error discovering online verifiers: " +:+ message))) in
     getsT issuers).

(** The callback of [forEach] in [discoverOfflineVerifiers]. *)
Definition offlineEntry (file : string) : MT St unit :=
  if endsWith "Verifier.js" file then
    tryCatchT
      (let+ verifierInstance :=
         liftT (instantiate w (join offlineVerifiersPath file)) in
       let title :=
         VerifierInterface.getTitle (mainFilename w) verifierInstance in
       let filenameDerivedName := verifierNameToDisplayName file in
       let filenameDerivedTitle := Path.basename file ".js" in
       let displayName :=
         if negb (String.eqb title filenameDerivedTitle)
         then title else filenameDerivedName in
       push {| id := toLowerCase displayName; name := displayName;
               title := displayName; type := "offline";
               description :=
                 displayName +:+ " credential verification" |})
      (fun error =>
         let+ message := messageOf error in
         let+ _ := log (couldNotInstantiate file message) in
         let id := verifierNameToIssuerId file in
         let filenameDerivedName := verifierNameToDisplayName file in
         let filenameDerivedTitle := Path.basename file ".js" in
         let+ title :=
           extractTitle offlineVerifiersPath file filenameDerivedTitle in
         let displayName :=
           if negb (String.eqb title filenameDerivedTitle)
           then title else filenameDerivedName in
         push {| id := toLowerCase displayName; name := displayName;
                 title := title; type := "offline";
                 description := title +:+ " credential verification" |})
  else retT tt.

(** [discoverOfflineVerifiers()] *)
Definition discoverOfflineVerifiers : MT (list LogLine) (list Issuer) :=
  withIssuers
    (let+ _ :=
       tryCatchT
         (let+ files := liftT (ofOutcome (readdirSync w offlineVerifiersPath)) in
          forEachT offlineEntry files)
         (fun error =>
            let+ message := messageOf error in
            log (Error ("Error discovering offline verifiers: " +:+ message))) in
     getsT issuers).

(** [getAllIssuers()] *)
Definition getAllIssuers : MT (list LogLine) (list Issuer) :=
  let+ onlineIssuers := discoverOnlineVerifiers in
  let+ offlineIssuers := discoverOfflineVerifiers in
  retT (onlineIssuers ++ offlineIssuers).

(** What the module of [file] in [dir] throws when it throws [null] or
    [undefined]: the message of the [TypeError] of the [catch] block. *)
Definition abortsWith (dir file : string) : option string :=
  match instantiate w (join dir file) with
  | Thrown NullValue => Some nullMessage
  | Thrown UndefinedValue => Some undefinedMessage
  | Done _ | Thrown (ErrorValue _) => None
  end.

(** The files of a listing that the loop handles to the end: those that
    pass the test, up to the first whose module throws [null] or
    [undefined]. *)
Fixpoint reached (dir : string) (files : list string) : list string :=
  match files with
  | [] => []
  | file :: rest =>
      if endsWith "Verifier.js" file then
        match abortsWith dir file with
        | Some _ => []
        | None => file :: reached dir rest
        end
      else reached dir rest
  end.

(** The message with which the loop is left early, if it is. *)
Fixpoint aborted (dir : string) (files : list string) : option string :=
  match files with
  | [] => None
  | file :: rest =>
      if endsWith "Verifier.js" file then
        match abortsWith dir file with
        | Some m => Some m
        | None => aborted dir rest
        end
      else aborted dir rest
  end.

(** The surroundings as the functions of [Registry] see them; what they
    say of a module that throws [null] or [undefined] is not used. *)
Definition errorsOnly : Registry.World :=
  {| Registry.readdirSync := readdirSync w;
     Registry.readFileSync := readFileSync w;
     Registry.instantiate := fun file =>
       match instantiate w file with
       | Done v => Return v
       | Thrown (ErrorValue m) => Throw m
       | Thrown NullValue => Throw nullMessage
       | Thrown UndefinedValue => Throw undefinedMessage
       end;
     Registry.mainFilename := mainFilename w |}.
End Discovery.

(** The files a listing handles to the end, the line the early exit
    writes, and the line a failed listing writes. *)
Definition anyReached (w : World) (dir : string) : list string :=
  match readdirSync w dir with
  | Return files => reached w dir files
  | Throw _ => []
  end.

Definition anyLogs (w : World) (dir prefix : string) : list LogLine :=
  match readdirSync w dir with
  | Return files =>
      flat_map (RegistrySpec.entryLogs (errorsOnly w) dir) (reached w dir files)
      ++ match aborted w dir files with
         | Some m => [Error (prefix +:+ m)]
         | None => []
         end
  | Throw e => [Error (prefix +:+ e)]
  end.

(** Surroundings in which what is thrown is an [Error]. *)
Definition ofWorld (w : Registry.World) : World :=
  {| readdirSync := Registry.readdirSync w;
     readFileSync := Registry.readFileSync w;
     instantiate := fun file => ofOutcome (Registry.instantiate w file);
     mainFilename := Registry.mainFilename w |}.
End RegistryAny.

(** ** The factory, whatever a constructor throws *)

Module FactoryAny.
Import JsString AnyThrow.
Import VerifierFactory (Config, mkConfig, method, issuerName, Verifier,
                        Online, Offline, baseName).

Record World : Type := mkWorld {
  (** [fs.readdirSync] of the directory [online-verifiers] *)
  readdirSync : outcome (list string);
  (** [new (require("./online-verifiers/" + className))(config)] *)
  construct : string -> Config -> attempt unit;
  (** [process.env.NODE_ENV] *)
  NODE_ENV : option string
}.

(** [getVerifier(config = {})]; the state is the console.  The [catch]
    block reads [err.message] outside production only. *)
Definition getVerifier (w : World) (config : option Config)
  : MT (list string) Verifier :=
  let config := default {| method := None; issuerName := None |} config in
  let method := default "online" (method config) in
  let issuerName := issuerName config in
  if String.eqb method "online" then
    if negb (VerifierInterface.truthy issuerName) then
      raise (ErrorValue "issuerName is required for online verification")
    else
      let issuerName := default "" issuerName in
      tryCatchT
        (if negb (onlyLetters issuerName) then
           raise (ErrorValue "Invalid verifier name format")
         else
           let+ files := liftT (ofOutcome (readdirSync w)) in
           let normalizedIssuerName := toLowerCase issuerName in
           let matchingFile :=
             List.find
               (fun file => String.eqb (baseName file) normalizedIssuerName)
               files in
           match matchingFile with
           | None =>
               raise (ErrorValue
                        ("No verifier file found for issuer: " +:+ issuerName))
           | Some matchingFile =>
               let className := stripSuffix false ".js" matchingFile in
               let+ _ := liftT (construct w className config) in
               retT (Online className config)
           end)
        (fun err =>
           let+ _ :=
             if negb (bool_decide (NODE_ENV w = Some "production"))
             then
               let+ message := messageOf err in
               modifyT (fun c => c ++ ["Error loading verifier: " +:+ message])
             else retT tt in
           raise (ErrorValue ("Unknown online verifier: " +:+ issuerName)))
  else if String.eqb method "offline" then
    retT (Offline config)
  else
    raise (ErrorValue ("Unknown verification method: " +:+ method)).

(** The console after the [catch] block has run on an [Error] with the
    message [cause]. *)
Definition consoleAfter (w : World) (c : list string) (cause : string)
  : list string :=
  if bool_decide (NODE_ENV w = Some "production") then c
  else c ++ ["Error loading verifier: " +:+ cause].

(** What is thrown once the [catch] block has caught [e]. *)
Definition caught (w : World) (c : list string) (name : string) (e : thrown)
  : attempt Verifier * list string :=
  if bool_decide (NODE_ENV w = Some "production") then
    (Thrown (ErrorValue ("Unknown online verifier: " +:+ name)), c)
  else
    match e with
    | ErrorValue cause =>
        (Thrown (ErrorValue ("Unknown online verifier: " +:+ name)),
         c ++ ["Error loading verifier: " +:+ cause])
    | NullValue => (Thrown (ErrorValue nullMessage), c)
    | UndefinedValue => (Thrown (ErrorValue undefinedMessage), c)
    end.

(** Surroundings in which what is thrown is an [Error]. *)
Definition ofWorld (w : VerifierFactory.World) : World :=
  {| readdirSync := VerifierFactory.readdirSync w;
     construct := fun className config =>
       ofOutcome (VerifierFactory.construct w className config);
     NODE_ENV := VerifierFactory.NODE_ENV w |}.
End FactoryAny.

(** ** The translation of a response, whatever it holds *)

Module ResponseAny.
Import JsString.

(** An entry of [errors]: both fields are whatever the expressions of
    [pushError] give. *)
Record Entry : Type := mkEntry {
  error : Js.val;
  raw : Js.val
}.

Record Result : Type := mkAnyResult {
  success : bool;
  message : string;
  errors : option (list Entry)
}.

(** The own property [k] of an object given by its fields in the order
    of the JSON text: of two fields with one key the later one counts. *)
Fixpoint field (k : string) (fields : list (string * Js.val)) : option Js.val :=
  match fields with
  | [] => None
  | (k', v) :: rest =>
      match field k rest with
      | Some later => Some later
      | None => if String.eqb k k' then Some v else None
      end
  end.

(** [errObj.message]: reading a property of [null] or [undefined]
    throws; an object gives its own [message] or [undefined]; strings,
    numbers, booleans and arrays have no such property. *)
Definition messageOf (errObj : Js.val) : outcome Js.val :=
  match errObj with
  | Js.VNull => Throw AnyThrow.nullMessage
  | Js.VUndefined => Throw AnyThrow.undefinedMessage
  | Js.VObj fields => Return (default Js.VUndefined (field "message" fields))
  | Js.VBool _ | Js.VNum _ | Js.VStr _ | Js.VArr _ | Js.VInherited _ =>
      Return Js.VUndefined
  end.

(** The property key a value stands for in [errorTranslator[value]].  A
    string is its own key and [undefined] gives the key of that name;
    the conversion of any other value is the host's, and may throw. *)
Definition keyOf (toPropertyKey : Js.val -> outcome string) (v : Js.val)
  : outcome string :=
  match v with
  | Js.VStr s => Return s
  | Js.VUndefined => Return "undefined"
  | _ => toPropertyKey v
  end.

Section Translation.
Variable toPropertyKey : Js.val -> outcome string.

(** The arrow function [pushError] of [translateResponse]. *)
Definition pushError (errObj : Js.val) : outcome Entry :=
  match messageOf errObj with
  | Throw m => Throw m
  | Return message =>
      match keyOf toPropertyKey message with
      | Throw m => Throw m
      | Return key =>
          let translated := JharSevaVerifier.translate key in
          Return
            {| error :=
                 if Js.truthy translated then translated
                 else Js.VStr "An unknown error occurred during verification.";
               raw :=
                 if Js.truthy message then message
                 else Js.VStr "An unknown error occurred" |}
      end
  end.

(** [error.map(pushError)] *)
Fixpoint mapErrors (items : list Js.val) : outcome (list Entry) :=
  match items with
  | [] => Return []
  | e :: rest =>
      match pushError e with
      | Throw m => Throw m
      | Return x =>
          match mapErrors rest with
          | Throw m => Throw m
          | Return xs => Return (x :: xs)
          end
      end
  end.

(** The test [error && (Array.isArray(error) ? error.length > 0 : true)]. *)
Definition errorPresent (error : Js.val) : bool :=
  Js.truthy error &&
  match error with
  | Js.VArr items => (0 <? length items)%nat
  | _ => true
  end.

(** [translateResponse(response)], given the value of
    [response?.data?.error]. *)
Definition translateResponse (error : Js.val) : outcome Result :=
  let formatted : outcome (list Entry) :=
    if errorPresent error then
      match error with
      | Js.VArr items => mapErrors items
      | _ =>
          match pushError error with
          | Throw m => Throw m
          | Return x => Return [x]
          end
      end
    else Return [] in
  match formatted with
  | Throw m => Throw m
  | Return formattedErrors =>
      if (0 <? length formattedErrors)%nat then
        Return {| success := false;
                  message := "Credential verification failed.";
                  errors := Some formattedErrors |}
      else
        Return {| success := true;
                  message := "Credential verified successfully.";
                  errors := None |}
  end.
End Translation.

(** The values the typed response of [JharSevaVerifier] stands for. *)
Definition ofErrObj (e : JharSevaVerifier.ErrObj) : Js.val :=
  match JharSevaVerifier.errMessage e with
  | Some m => Js.VObj [("message", Js.VStr m)]
  | None => Js.VObj []
  end.

Definition ofItem (i : option JharSevaVerifier.ErrObj) : Js.val :=
  match i with
  | Some e => ofErrObj e
  | None => Js.VNull
  end.

Definition ofErrorField (e : JharSevaVerifier.ErrorField) : Js.val :=
  match e with
  | JharSevaVerifier.Absent => Js.VUndefined
  | JharSevaVerifier.Falsy => Js.VNull
  | JharSevaVerifier.ErrorArray items => Js.VArr (map ofItem items)
  | JharSevaVerifier.ErrorOther e => ofErrObj e
  end.

Definition ofEntry (x : ErrorEntry) : Entry :=
  let '(mkErrorEntry e r) := x in {| error := e; raw := Js.VStr r |}.

Definition ofResult (r : VerificationResult) : Result :=
  let '(mkResult s m es) := r in
  {| success := s; message := m; errors := option_map (map ofEntry) es |}.

Definition ofOutcomeResult (o : outcome VerificationResult) : outcome Result :=
  match o with
  | Return r => Return (ofResult r)
  | Throw m => Throw m
  end.
End ResponseAny.

(** ** Sample surroundings with modules that throw [null] *)

Module AnySamples.
Import AnyThrow.

(** An online directory whose first module throws [null] when it is
    loaded and whose second loads; an offline directory whose module
    cannot be found and whose source declares a title. *)
Definition nullModule : RegistryAny.World :=
  {| RegistryAny.readdirSync := fun dir =>
       if String.eqb dir Registry.onlineVerifiersPath
       then Return ["AaVerifier.js"; "BbVerifier.js"]
       else if String.eqb dir Registry.offlineVerifiersPath
            then Return ["SignatureVerifier.js"]
            else Throw "ENOENT: no such file or directory";
     RegistryAny.readFileSync := fun _ => Return "const _title = 'sunbird-rc';";
     RegistryAny.instantiate := fun file =>
       if String.eqb file
            (Registry.join Registry.onlineVerifiersPath "AaVerifier.js")
       then Thrown NullValue
       else if String.eqb file Samples.signatureModule
            then Thrown (ErrorValue "Cannot find module")
            else Done (VerifierInterface.new None);
     RegistryAny.mainFilename := Some "/app/src/server.js" |}.

(** An online directory whose class throws [null] when it is built,
    outside production and in production. *)
Definition nullConstructor (env : option string) : FactoryAny.World :=
  {| FactoryAny.readdirSync := Return ["AcmeVerifier.js"];
     FactoryAny.construct := fun _ _ => Thrown NullValue;
     FactoryAny.NODE_ENV := env |}.

(** An online directory whose class throws an [Error] when it is built,
    outside production. *)
Definition failingConstructor : FactoryAny.World :=
  {| FactoryAny.readdirSync := Return ["JharSevaVerifier.js"];
     FactoryAny.construct := fun _ _ =>
       Thrown (ErrorValue
                 "JHARSEVA_VERIFICATION_API environment variable is not set.");
     FactoryAny.NODE_ENV := Some "development" |}.


End AnySamples.

(** * Properties *)

(** ** Issuer ids derived from file names *)

Module RegistryNames.
Import JsString Registry RegistrySpec.

Example issuerId_Dhiway : verifierNameToIssuerId "DhiwayVerifier.js" = "dhiway".
Proof. reflexivity. Qed.

Example issuerId_JharSeva :
  verifierNameToIssuerId "JharSevaVerifier.js" = "jharseva".
Proof. reflexivity. Qed.

Example issuerIdBySuffix_Dhiway : issuerIdBySuffix "DhiwayVerifier.js" = "dhiway".
Proof. reflexivity. Qed.

(** C1, at names with an interior occurrence: [replace] with a string
    pattern removes the first occurrence, not the one at the end, so the
    registered names [VerifierHubVerifier.js] and [Data.jsonVerifier.js]
    get the ids [hubverifier] and [dataon.js], where removing suffix and
    extension gives [verifierhub] and [data.json]. *)
Theorem issuerId_interior_occurrence :
  endsWith "Verifier.js" "VerifierHubVerifier.js" = true /\
  verifierNameToIssuerId "VerifierHubVerifier.js" = "hubverifier" /\
  issuerIdBySuffix "VerifierHubVerifier.js" = "verifierhub" /\
  endsWith "Verifier.js" "Data.jsonVerifier.js" = true /\
  verifierNameToIssuerId "Data.jsonVerifier.js" = "dataon.js" /\
  issuerIdBySuffix "Data.jsonVerifier.js" = "data.json".
Proof. repeat split; reflexivity. Qed.

(** *** Names in which suffix and extension come first *)

Lemma replace_cons pat repl c s :
  replace pat repl (String c s) =
  if startsWith pat (String c s)
  then repl +:+ drop (String.length pat) (String c s)
  else String c (replace pat repl s).
Proof. reflexivity. Qed.

Lemma replace_clearBefore pat repl b suffix :
  clearBefore pat b suffix = true ->
  replace pat repl (b +:+ suffix) = b +:+ replace pat repl suffix.
Proof.
  induction b as [|c b IH]; [reflexivity|].
  cbn [clearBefore]. intros H. apply andb_true_iff in H as [Hhere Hrest].
  apply negb_true_iff in Hhere.
  change (String c b +:+ suffix) with (String c (b +:+ suffix)) in *.
  rewrite replace_cons, Hhere, (IH Hrest). reflexivity.
Qed.

Lemma length_append (a b : string) :
  String.length (a +:+ b) = (String.length a + String.length b)%nat.
Proof. induction a as [|c a IH]; simpl; [reflexivity|]. f_equal. exact IH. Qed.

Lemma drop_append (a b : string) : drop (String.length a) (a +:+ b) = b.
Proof. induction a as [|c a IH]; simpl; [destruct b; reflexivity|exact IH]. Qed.

Lemma take_append (a b : string) : take (String.length a) (a +:+ b) = a.
Proof. induction a as [|c a IH]; simpl; [reflexivity|]. f_equal. exact IH. Qed.

Lemma stripSuffix_append (b suffix : string) :
  stripSuffix false suffix (b +:+ suffix) = b.
Proof.
  unfold stripSuffix. rewrite length_append.
  replace (String.length b + String.length suffix - String.length suffix)%nat
    with (String.length b) by lia.
  rewrite drop_append, take_append, String.eqb_refl.
  destruct (Nat.leb_spec (String.length suffix)
              (String.length b + String.length suffix)) as [_|Hlt];
    [reflexivity|lia].
Qed.

Lemma append_assoc (a b c : string) : (a +:+ b) +:+ c = a +:+ (b +:+ c).
Proof.
  induction a as [|x a IH]; [reflexivity|].
  change (String x ((a +:+ b) +:+ c) = String x (a +:+ (b +:+ c))).
  f_equal. exact IH.
Qed.

Lemma append_empty (a : string) : a +:+ "" = a.
Proof.
  induction a as [|x a IH]; [reflexivity|].
  change (String x (a +:+ "") = String x a). f_equal. exact IH.
Qed.

(** Taking suffix and extension off the end of [base +:+ "Verifier.js"]
    leaves [base]. *)
Lemma issuerIdBySuffix_base (base : string) :
  issuerIdBySuffix (base +:+ "Verifier.js") = toLowerCase base.
Proof.
  unfold issuerIdBySuffix.
  change "Verifier.js" with ("Verifier" +:+ ".js").
  rewrite <- append_assoc, !stripSuffix_append. reflexivity.
Qed.

(** Where no occurrence of the extension or of the suffix starts inside
    the base of the name, the derived id is the base in lower case. *)
Lemma issuerId_suffix_first (base : string) :
  clearBefore ".js" base "Verifier.js" = true ->
  clearBefore "Verifier" base "Verifier" = true ->
  verifierNameToIssuerId (base +:+ "Verifier.js") = toLowerCase base /\
  verifierNameToIssuerId (base +:+ "Verifier.js")
    = issuerIdBySuffix (base +:+ "Verifier.js").
Proof.
  intros Hext Hsuffix.
  assert (Hid : verifierNameToIssuerId (base +:+ "Verifier.js") = toLowerCase base).
  { unfold verifierNameToIssuerId.
    rewrite (replace_clearBefore ".js" "" base "Verifier.js" Hext).
    change (replace ".js" "" "Verifier.js") with "Verifier".
    rewrite (replace_clearBefore "Verifier" "" base "Verifier" Hsuffix).
    change (replace "Verifier" "" "Verifier") with "".
    rewrite append_empty. reflexivity. }
  split; [exact Hid|]. rewrite Hid, issuerIdBySuffix_base. reflexivity.
Qed.

Example issuerId_Visa : verifierNameToIssuerId "VisaVerifier.js" = "visa".
Proof. apply (issuerId_suffix_first "Visa"); reflexivity. Qed.
End RegistryNames.

(** ** Discovery as a function of the surroundings *)

Module RegistryRuns.
Import JsString Registry RegistrySpec.

Lemma extractTitle_run w dir file s :
  extractTitle w dir file (Path.basename file ".js") s =
  (Return (extractedTitle w dir file),
   {| issuers := issuers s;
      console := console s ++ extractLogs w dir file |}).
Proof.
  unfold extractTitle, extractedTitle, extractLogs, tryCatch, bind, lift, ret,
    log, modify.
  destruct (readFileSync w (join dir file)) as [content|e]; simpl.
  - rewrite app_nil_r. destruct s; reflexivity.
  - reflexivity.
Qed.

Lemma onlineEntry_run w file s :
  onlineEntry w file s =
  (Return tt,
   if endsWith "Verifier.js" file
   then {| issuers := issuers s ++ [onlineIssuerOf w file];
           console := console s ++ entryLogs w onlineVerifiersPath file |}
   else s).
Proof.
  unfold onlineEntry.
  destruct (endsWith "Verifier.js" file); [|reflexivity].
  unfold onlineIssuerOf, resolvedTitle, entryLogs, displayNameFor.
  unfold tryCatch at 1. unfold bind at 1. unfold lift at 1.
  destruct (instantiate w (join onlineVerifiersPath file)) as [inst|e].
  - unfold push, modify. simpl. rewrite app_nil_r. reflexivity.
  - unfold bind at 1. unfold log at 1, modify at 1.
    unfold bind at 1. rewrite extractTitle_run.
    unfold push, modify. simpl. rewrite <- app_assoc. reflexivity.
Qed.

Lemma offlineEntry_run w file s :
  offlineEntry w file s =
  (Return tt,
   if endsWith "Verifier.js" file
   then {| issuers := issuers s ++ [offlineIssuerOf w file];
           console := console s ++ entryLogs w offlineVerifiersPath file |}
   else s).
Proof.
  unfold offlineEntry.
  destruct (endsWith "Verifier.js" file); [|reflexivity].
  unfold offlineIssuerOf, resolvedTitle, entryLogs, displayNameFor.
  unfold tryCatch at 1. unfold bind at 1. unfold lift at 1.
  destruct (instantiate w (join offlineVerifiersPath file)) as [inst|e].
  - unfold push, modify. simpl. rewrite app_nil_r. reflexivity.
  - unfold bind at 1. unfold log at 1, modify at 1.
    unfold bind at 1. rewrite extractTitle_run.
    unfold push, modify. simpl. rewrite <- app_assoc. reflexivity.
Qed.

(** A loop whose body never throws and adds at most one entry per file. *)
Lemma forEach_run (body : string -> M St unit)
    (issuerOf : string -> Issuer) (logsOf : string -> list LogLine) :
  (forall file s,
      body file s =
      (Return tt,
       if endsWith "Verifier.js" file
       then {| issuers := issuers s ++ [issuerOf file];
               console := console s ++ logsOf file |}
       else s)) ->
  forall files s,
    forEach body files s =
    (Return tt,
     {| issuers :=
          issuers s ++ map issuerOf (List.filter (endsWith "Verifier.js") files);
        console :=
          console s ++
          flat_map logsOf (List.filter (endsWith "Verifier.js") files) |}).
Proof.
  intros Hbody files. induction files as [|file files IH]; intros s.
  - simpl. unfold ret. rewrite !app_nil_r. destruct s; reflexivity.
  - simpl. unfold bind. rewrite Hbody.
    destruct (endsWith "Verifier.js" file); rewrite IH; simpl.
    + rewrite <- !app_assoc. reflexivity.
    + reflexivity.
Qed.

Lemma discoverOnlineVerifiers_run w c :
  discoverOnlineVerifiers w c =
  (Return (map (onlineIssuerOf w) (registered (readdirSync w onlineVerifiersPath))),
   c ++ listingLogs "Error discovering online verifiers: "
          (readdirSync w onlineVerifiersPath)
          (entryLogs w onlineVerifiersPath)).
Proof.
  unfold discoverOnlineVerifiers, withIssuers, listingLogs, registered.
  unfold bind at 1. unfold tryCatch, bind, lift.
  destruct (readdirSync w onlineVerifiersPath) as [files|e].
  - rewrite (forEach_run _ _ _ (onlineEntry_run w)). reflexivity.
  - reflexivity.
Qed.

Lemma discoverOfflineVerifiers_run w c :
  discoverOfflineVerifiers w c =
  (Return (map (offlineIssuerOf w) (registered (readdirSync w offlineVerifiersPath))),
   c ++ listingLogs "Error discovering offline verifiers: "
          (readdirSync w offlineVerifiersPath)
          (entryLogs w offlineVerifiersPath)).
Proof.
  unfold discoverOfflineVerifiers, withIssuers, listingLogs, registered.
  unfold bind at 1. unfold tryCatch, bind, lift.
  destruct (readdirSync w offlineVerifiersPath) as [files|e].
  - rewrite (forEach_run _ _ _ (offlineEntry_run w)). reflexivity.
  - reflexivity.
Qed.
End RegistryRuns.

(** ** The catalog *)

Module RegistryProps.
Import JsString Registry RegistrySpec RegistryRuns.

Example deployed_offline :
  fst (discoverOfflineVerifiers Samples.deployed []) =
  Return [ {| id := "sunbird-rc"; name := "sunbird-rc"; title := "sunbird-rc";
              type := "offline";
              description := "sunbird-rc credential verification" |} ].
Proof. vm_compute. reflexivity. Qed.

Example deployed_online :
  fst (discoverOnlineVerifiers Samples.deployed []) =
  Return [ {| id := "jharseva"; name := "JharSeva";
              title := "JharSevaVerifier"; type := "online";
              description := "JharSevaVerifier credential verification" |} ].
Proof. vm_compute. reflexivity. Qed.

(** C2: every offline entry has the lower case of its display name as
    its id, every online entry the id derived from its file name; an
    offline variant that is built and whose title is not the file name
    without extension is listed under that title, its id the title in
    lower case. *)
Theorem offline_id_is_lowercase_display_name (w : World) (c : list LogLine) :
  exists online offline c1 c2,
    discoverOnlineVerifiers w c = (Return online, c1) /\
    discoverOfflineVerifiers w c = (Return offline, c2) /\
    Forall (fun i => id i = toLowerCase (name i)) offline /\
    map id online =
      map verifierNameToIssuerId (registered (readdirSync w onlineVerifiersPath)) /\
    (forall file inst,
        In file (registered (readdirSync w offlineVerifiersPath)) ->
        instantiate w (join offlineVerifiersPath file) = Return inst ->
        VerifierInterface.getTitle (mainFilename w) inst
          <> Path.basename file ".js" ->
        exists i, In i offline /\
          name i = VerifierInterface.getTitle (mainFilename w) inst /\
          id i = toLowerCase (VerifierInterface.getTitle (mainFilename w) inst)).
Proof.
  rewrite discoverOnlineVerifiers_run, discoverOfflineVerifiers_run.
  do 4 eexists. split; [reflexivity|]. split; [reflexivity|].
  split; [|split].
  - apply List.Forall_forall. intros i Hi.
    apply List.in_map_iff in Hi as (file & <- & _).
    unfold offlineIssuerOf.
    destruct (instantiate w (join offlineVerifiersPath file)); reflexivity.
  - rewrite List.map_map. reflexivity.
  - intros file inst Hin Hinst Hne.
    exists (offlineIssuerOf w file). split; [apply List.in_map; exact Hin|].
    unfold offlineIssuerOf, resolvedTitle, displayNameFor. rewrite Hinst.
    apply String.eqb_neq in Hne. rewrite Hne. simpl. split; reflexivity.
Qed.

Lemma offline_id_is_lowercase_display_name_witness :
  exists offline c2,
    discoverOfflineVerifiers Samples.deployed [] = (Return offline, c2) /\
    exists i, In i offline /\ name i = "sunbird-rc" /\ id i = "sunbird-rc".
Proof.
  destruct (offline_id_is_lowercase_display_name Samples.deployed [])
    as (online & offline & c1 & c2 & _ & Hoff & _ & _ & Hcustom).
  exists offline, c2. split; [exact Hoff|].
  apply (Hcustom "SignatureVerifier.js"
           (SignatureVerifier.new Samples.signatureModule)).
  - vm_compute. left. reflexivity.
  - reflexivity.
  - vm_compute. discriminate.
Defined.

(** Every file that passes the test gets an entry, whatever fails. *)
Lemma fallback_entry_recorded (w : World) (dir file e : string)
    (issuerOf : string -> Issuer) (c : list LogLine) :
  In file (registered (readdirSync w dir)) ->
  instantiate w (join dir file) = Throw e ->
  In (couldNotInstantiate file e)
     (c ++ listingLogs "" (readdirSync w dir) (entryLogs w dir)) /\
  In (issuerOf file) (map issuerOf (registered (readdirSync w dir))).
Proof.
  intros Hin He. split; [|apply List.in_map; exact Hin].
  apply List.in_or_app. right. unfold listingLogs.
  destruct (readdirSync w dir) as [files|e'] eqn:Hdir; [|destruct Hin].
  apply List.in_flat_map. exists file. split; [exact Hin|].
  unfold entryLogs. rewrite He. left. reflexivity.
Qed.

(** For modules and constructors that throw [Error]s: discovery always
    returns a list.  When the directory of a type cannot be listed, the
    error is written to the console and the list of that type is empty.
    When a variant cannot be built, a warning is written, and the entry
    is recorded all the same, with the title constant of the source text,
    or else the file name, as its title; the listing holds one entry for
    each file that passes the test. *)
Theorem discovery_never_throws (w : World) (c : list LogLine) :
  exists online offline c1 c2,
    discoverOnlineVerifiers w c = (Return online, c1) /\
    discoverOfflineVerifiers w c = (Return offline, c2) /\
    (exists all c3, getAllIssuers w c = (Return all, c3)) /\
    (forall e, readdirSync w onlineVerifiersPath = Throw e ->
       online = [] /\
       c1 = c ++ [Error ("Error discovering online verifiers: " +:+ e)]) /\
    (forall e, readdirSync w offlineVerifiersPath = Throw e ->
       offline = [] /\
       c2 = c ++ [Error ("Error discovering offline verifiers: " +:+ e)]) /\
    length online = length (registered (readdirSync w onlineVerifiersPath)) /\
    length offline = length (registered (readdirSync w offlineVerifiersPath)) /\
    (forall file e,
       In file (registered (readdirSync w onlineVerifiersPath)) ->
       instantiate w (join onlineVerifiersPath file) = Throw e ->
       In (couldNotInstantiate file e) c1 /\
       exists i, In i online /\ id i = verifierNameToIssuerId file /\
                 title i = extractedTitle w onlineVerifiersPath file) /\
    (forall file e,
       In file (registered (readdirSync w offlineVerifiersPath)) ->
       instantiate w (join offlineVerifiersPath file) = Throw e ->
       In (couldNotInstantiate file e) c2 /\
       exists i, In i offline /\
                 title i = extractedTitle w offlineVerifiersPath file).
Proof.
  unfold getAllIssuers, bind, ret.
  rewrite !discoverOnlineVerifiers_run, !discoverOfflineVerifiers_run.
  do 4 eexists. split; [reflexivity|]. split; [reflexivity|].
  split; [do 2 eexists; reflexivity|].
  split; [intros e He; rewrite He; split; reflexivity|].
  split; [intros e He; rewrite He; split; reflexivity|].
  split; [apply List.length_map|]. split; [apply List.length_map|].
  split; intros file e Hin He.
  - destruct (fallback_entry_recorded w onlineVerifiersPath file e
                (onlineIssuerOf w) c Hin He) as [Hlog Hentry].
    split.
    + revert Hlog. unfold listingLogs.
      destruct (readdirSync w onlineVerifiersPath); [auto|destruct Hin].
    + exists (onlineIssuerOf w file). split; [exact Hentry|].
      unfold onlineIssuerOf, resolvedTitle. rewrite He. split; reflexivity.
  - destruct (fallback_entry_recorded w offlineVerifiersPath file e
                (offlineIssuerOf w) c Hin He) as [Hlog Hentry].
    split.
    + revert Hlog. unfold listingLogs.
      destruct (readdirSync w offlineVerifiersPath); [auto|destruct Hin].
    + exists (offlineIssuerOf w file). split; [exact Hentry|].
      unfold offlineIssuerOf, resolvedTitle. rewrite He. reflexivity.
Qed.

Lemma discovery_never_throws_witness :
  exists online offline c1 c2,
    discoverOnlineVerifiers Samples.degraded [] = (Return online, c1) /\
    discoverOfflineVerifiers Samples.degraded [] = (Return offline, c2) /\
    online = [] /\
    c1 = [Error "Error discovering online verifiers: ENOENT: no such file or directory"] /\
    In (couldNotInstantiate "SignatureVerifier.js" "Cannot find module") c2 /\
    exists i, In i offline /\ title i = "sunbird-rc".
Proof.
  destruct (discovery_never_throws Samples.degraded [])
    as (online & offline & c1 & c2 & Hon & Hoff & _ & Hdir & _ & _ & _ & _ & Hoffl).
  exists online, offline, c1, c2.
  destruct (Hdir "ENOENT: no such file or directory") as [Hnil Hc1];
    [reflexivity|].
  destruct (Hoffl "SignatureVerifier.js" "Cannot find module")
    as [Hwarn Hentry]; [vm_compute; left; reflexivity | reflexivity |].
  repeat split; assumption.
Defined.
End RegistryProps.

(** ** The factory *)

Module FactoryProps.
Import JsString VerifierFactory.

Example getVerifier_unknown_method w c :
  getVerifier w (Some {| method := Some "postal"; issuerName := None |}) c =
  (Throw "Unknown verification method: postal", c).
Proof. reflexivity. Qed.

Example getVerifier_offline w c n :
  getVerifier w (Some {| method := Some "offline"; issuerName := n |}) c =
  (Return (Offline {| method := Some "offline"; issuerName := n |}), c).
Proof. reflexivity. Qed.

Example getVerifier_doesnotexist c :
  getVerifier Samples.factory (Some (Samples.online "doesnotexist")) c =
  (Throw "Unknown online verifier: doesnotexist", c).
Proof. reflexivity. Qed.

(** The online branch, once the name is there and well formed, the
    directory is listed, a file matches and its class is built. *)
Lemma getVerifier_online_found w c cfg name files file :
  default "online" (method cfg) = "online" ->
  issuerName cfg = Some name ->
  onlyLetters name = true ->
  readdirSync w = Return files ->
  List.find (fun f => String.eqb (baseName f) (toLowerCase name)) files
    = Some file ->
  construct w (stripSuffix false ".js" file) cfg = Return tt ->
  getVerifier w (Some cfg) c =
  (Return (Online (stripSuffix false ".js" file) cfg), c).
Proof.
  intros Hm Hn Hletters Hdir Hfind Hctor.
  unfold getVerifier. simpl. rewrite Hm, Hn. simpl.
  assert (Hne : nonEmpty name = true) by (destruct name; [discriminate|reflexivity]).
  rewrite Hne. simpl.
  unfold tryCatch. rewrite Hletters. simpl.
  unfold bind, lift. rewrite Hdir, Hfind, Hctor. reflexivity.
Qed.

(** Whatever goes wrong inside the [try] block comes out as the one
    error of the [catch] block. *)
Lemma getVerifier_online_catch w c cfg name :
  default "online" (method cfg) = "online" ->
  issuerName cfg = Some name ->
  nonEmpty name = true ->
  forall v c', getVerifier w (Some cfg) c = (v, c') ->
    (exists cls, v = Return (Online cls cfg)) \/
    v = Throw ("Unknown online verifier: " +:+ name).
Proof.
  intros Hm Hn Hne v c'.
  unfold getVerifier. simpl. rewrite Hm, Hn. simpl. rewrite Hne. simpl.
  unfold tryCatch, bind, lift, throw, ret, modify.
  destruct (onlyLetters name); simpl.
  - destruct (readdirSync w) as [files|e].
    + destruct (List.find _ files) as [file|].
      * destruct (construct w _ cfg) as [[]|e].
        -- intros [= <- <-]. left. eexists. reflexivity.
        -- destruct (bool_decide _); simpl; intros [= <- <-]; right; reflexivity.
      * destruct (bool_decide _); simpl; intros [= <- <-]; right; reflexivity.
    + destruct (bool_decide _); simpl; intros [= <- <-]; right; reflexivity.
  - destruct (bool_decide _); simpl; intros [= <- <-]; right; reflexivity.
Qed.

(** A name that is there but malformed always ends in the error of the
    [catch] block. *)
Lemma getVerifier_malformed w c cfg name :
  default "online" (method cfg) = "online" ->
  issuerName cfg = Some name ->
  nonEmpty name = true ->
  onlyLetters name = false ->
  fst (getVerifier w (Some cfg) c) =
  Throw ("Unknown online verifier: " +:+ name).
Proof.
  intros Hm Hn Hne Hletters.
  unfold getVerifier. simpl. rewrite Hm, Hn. simpl. rewrite Hne. simpl.
  unfold tryCatch, bind, throw. rewrite Hletters. simpl.
  destruct (bool_decide _); reflexivity.
Qed.

(** C3, at the issuer name [dhiway-2]: the error thrown for the
    malformed name, [Invalid verifier name format], is caught and
    replaced, so the caller gets the error of an issuer that is not
    supported, as for [doesnotexist]; outside production the first
    message only reaches the console. *)
Theorem malformed_name_reported_as_unknown (w : World) (c : list string) :
  onlyLetters "dhiway-2" = false /\
  fst (getVerifier w (Some (Samples.online "dhiway-2")) c) =
    Throw "Unknown online verifier: dhiway-2" /\
  fst (getVerifier Samples.factory (Some (Samples.online "doesnotexist")) c) =
    Throw "Unknown online verifier: doesnotexist" /\
  snd (getVerifier Samples.development (Some (Samples.online "dhiway-2")) c) =
    c ++ ["Error loading verifier: Invalid verifier name format"].
Proof.
  split; [reflexivity|]. split; [|split; reflexivity].
  apply getVerifier_malformed; reflexivity.
Qed.

Lemma isAsciiLetter_lowerChar (c : ascii) :
  isAsciiLetter c = isLowerLetter (lowerChar c).
Proof. destruct c as [[] [] [] [] [] [] [] []]; reflexivity. Qed.

(** Whether a name is made of letters, and whether it is empty, is
    decided by its lower case. *)
Lemma onlyLetters_toLowerCase (s t : string) :
  toLowerCase s = toLowerCase t -> onlyLetters s = onlyLetters t.
Proof.
  assert (Hall : forall u, allChars isAsciiLetter u
                           = allChars isLowerLetter (toLowerCase u)).
  { induction u as [|c u IH]; [reflexivity|].
    cbn [allChars toLowerCase]. rewrite IH, isAsciiLetter_lowerChar.
    reflexivity. }
  intros H. destruct s as [|a s], t as [|b t]; try discriminate;
    [reflexivity|].
  unfold onlyLetters. rewrite !Hall, H. reflexivity.
Qed.



Lemma find_first {A} (p : A -> bool) (l : list A) (x : A) :
  List.find p l = Some x ->
  exists before after,
    l = before ++ x :: after /\ p x = true /\
    Forall (fun y => p y = false) before.
Proof.
  induction l as [|y l IH]; [discriminate|].
  cbn [List.find]. destruct (p y) eqn:Hy.
  - intros [= <-]. exists [], l. repeat split; [exact Hy|constructor].
  - intros Hfind. destruct (IH Hfind) as (before & after & -> & Hx & Hbefore).
    exists (y :: before), after. repeat split; [exact Hx|].
    constructor; assumption.
Qed.





(** C10: without a [method] key the online branch is taken.  With no
    issuer name either, and with no configuration at all, the call
    fails with the error that asks for the issuer name; with an issuer
    name, the call returns an online verifier or throws the error of
    the online branch, and it returns the class of the first file
    whose base name is the name in lower case when that class is
    built. *)
Theorem method_defaults_to_online (w : World) (c : list string) :
  getVerifier w None c =
    (Throw "issuerName is required for online verification", c) /\
  getVerifier w (Some {| method := None; issuerName := None |}) c =
    (Throw "issuerName is required for online verification", c) /\
  forall name,
    (forall v c',
        getVerifier w (Some {| method := None; issuerName := Some name |}) c
          = (v, c') ->
        (exists cls,
            v = Return (Online cls {| method := None; issuerName := Some name |})) \/
        v = Throw "issuerName is required for online verification" \/
        v = Throw ("Unknown online verifier: " +:+ name)) /\
    (forall files file,
        onlyLetters name = true ->
        readdirSync w = Return files ->
        List.find (fun f => String.eqb (baseName f) (toLowerCase name)) files
          = Some file ->
        construct w (stripSuffix false ".js" file)
          {| method := None; issuerName := Some name |} = Return tt ->
        getVerifier w (Some {| method := None; issuerName := Some name |}) c =
        (Return (Online (stripSuffix false ".js" file)
                   {| method := None; issuerName := Some name |}), c)).
Proof.
  split; [reflexivity|]. split; [reflexivity|].
  intros name. split.
  - intros v c' Hrun. destruct name as [|ch rest].
    + inversion Hrun. right. left. reflexivity.
    + destruct (getVerifier_online_catch w c
                  {| method := None; issuerName := Some (String ch rest) |}
                  (String ch rest) eq_refl eq_refl eq_refl v c' Hrun)
        as [Hok|Herr]; [left; exact Hok | right; right; exact Herr].
  - intros files file Hletters Hdir Hfind Hctor.
    apply getVerifier_online_found with (name := name) (files := files);
      auto.
Qed.

Lemma method_defaults_to_online_witness :
  getVerifier Samples.factory
    (Some {| method := None; issuerName := Some "jharseva" |}) [] =
  (Return (Online "JharSevaVerifier"
             {| method := None; issuerName := Some "jharseva" |}), []).
Proof.
  destruct (method_defaults_to_online Samples.factory []) as (_ & _ & Hname).
  destruct (Hname "jharseva") as [_ Hfound].
  apply (Hfound ["AcmeVerifier.js"; "JharSevaVerifier.js"] "JharSevaVerifier.js");
    reflexivity.
Defined.
End FactoryProps.

(** ** Verification results *)

Module VerifyProps.
Import JsString JharSevaVerifier Variants.

Example translate_known :
  translate "Invalid signature" =
  Js.VStr "The credential's signature is invalid or has been tampered with.".
Proof. vm_compute. reflexivity. Qed.

Example translate_unknown : translate "Remote schema mismatch" = Js.VUndefined.
Proof. vm_compute. reflexivity. Qed.

(** The look-up reaches the members every object inherits. *)
Example translate_inherited : translate "constructor" = Js.VInherited "constructor".
Proof. vm_compute. reflexivity. Qed.

(** Every translation of the dictionary is a non-empty text. *)
Lemma errorTranslator_nonEmpty (k t : string) :
  errorTranslator !! k = Some t -> nonEmpty t = true.
Proof.
  unfold errorTranslator. intros H.
  repeat (apply lookup_insert_Some in H as [[_ <-]|[_ H]]; [reflexivity|]).
  rewrite lookup_empty in H. discriminate.
Qed.

(** [pushError] on an entry whose phrase names no inherited member. *)
Lemma pushError_entryFor (e : ErrObj) :
  phraseNotInherited e = true ->
  pushError (Some e) = Return (entryFor e).
Proof.
  destruct e as [[m|]]; unfold phraseNotInherited, pushError, entryFor,
    translate, Js.get; simpl.
  - intros Hproto. apply negb_true_iff in Hproto.
    destruct (errorTranslator !! m) as [t|] eqn:Hk; simpl.
    + rewrite (errorTranslator_nonEmpty _ _ Hk). reflexivity.
    + rewrite Hproto. reflexivity.
  - intros _. vm_compute. reflexivity.
Qed.

(** C7: a response without an [error] field, be it that the response,
    its data or the field is missing, is translated to the plain
    success object, which has no [errors] key. *)
Theorem no_error_field_is_success (response : option Response) :
  errorOf response = Absent ->
  translateResponse response =
  Return {| success := true;
            message := "Credential verified successfully.";
            errors := None |}.
Proof. intros H. unfold translateResponse. rewrite H. reflexivity. Qed.

Lemma no_error_field_is_success_witness :
  translateResponse (Some {| data := Some Absent |}) =
  Return {| success := true;
            message := "Credential verified successfully.";
            errors := None |}.
Proof. apply no_error_field_is_success. reflexivity. Defined.

(** C8 as the specification states it fails at an entry whose phrase is
    the empty string: its [raw] field is the fixed text, not the
    phrase. *)
Lemma empty_phrase_not_preserved :
  translateResponse (Samples.remoteErrors "" "Invalid signature") <>
  Return {| success := false;
            message := "Credential verification failed.";
            errors := Some [statedEntry ""; statedEntry "Invalid signature"] |}.
Proof. vm_compute. discriminate. Qed.

(** C8, amended: a response with two error entries is translated to a
    failure with two entries, in order.  The [error] field of each is
    the translation of its phrase by the dictionary, or the generic
    message when the dictionary has none; its [raw] field is the phrase,
    or the fixed text when the phrase is missing or empty.  (Phrases
    that name a member of [Object.prototype] are left aside.) *)
Theorem two_error_entries (response : option Response) (e1 e2 : ErrObj) :
  errorOf response = ErrorArray [Some e1; Some e2] ->
  phraseNotInherited e1 = true ->
  phraseNotInherited e2 = true ->
  translateResponse response =
  Return {| success := false;
            message := "Credential verification failed.";
            errors := Some [entryFor e1; entryFor e2] |}.
Proof.
  intros Hresp H1 H2. unfold translateResponse. rewrite Hresp.
  unfold errorPresent, mapErrors.
  rewrite (pushError_entryFor e1 H1), (pushError_entryFor e2 H2).
  reflexivity.
Qed.

Lemma two_error_entries_witness :
  translateResponse (Samples.remoteErrors "Invalid signature" "Quota exceeded") =
  Return {| success := false;
            message := "Credential verification failed.";
            errors :=
              Some [ {| error := Js.VStr "The credential's signature is invalid or has been tampered with.";
                        raw := "Invalid signature" |};
                     {| error := Js.VStr "An unknown error occurred during verification.";
                        raw := "Quota exceeded" |} ] |}.
Proof.
  apply (two_error_entries (Samples.remoteErrors "Invalid signature" "Quota exceeded")
           {| errMessage := Some "Invalid signature" |}
           {| errMessage := Some "Quota exceeded" |});
    reflexivity.
Defined.

(** The phrase [constructor] is looked up in the prototype: the
    [error] field is the inherited member, not a text. *)
Example inherited_phrase :
  translateResponse (Samples.remoteErrors "constructor" "Invalid signature") =
  Return {| success := false;
            message := "Credential verification failed.";
            errors :=
              Some [ {| error := Js.VInherited "constructor";
                        raw := "constructor" |};
                     {| error := Js.VStr "The credential's signature is invalid or has been tampered with.";
                        raw := "Invalid signature" |} ] |}.
Proof. vm_compute. reflexivity. Qed.

(** *** The expiry check *)

Lemma checkExpiry_expired self h fields v t :
  fields !! expiryField self = Some v ->
  Js.truthy v = true ->
  Js.newDate h v = Return (Some t) ->
  (t < Js.now h)%Z ->
  checkExpiry self h (Some fields) =
  {| isValid := false;
     checkError := Some "The credential has expired and is no longer valid." |}.
Proof.
  intros Hv Htruthy Hdate Hpast. unfold checkExpiry, Js.get.
  rewrite Hv, Htruthy, Hdate. simpl.
  destruct (Z.gtb_spec (Js.now h) t) as [_|Hle]; [reflexivity|lia].
Qed.

Lemma checkExpiry_skipped self h fields :
  Js.truthy (Js.get (fun v => v) fields (expiryField self)) = false ->
  checkExpiry self h (Some fields) = {| isValid := true; checkError := None |}.
Proof. intros H. unfold checkExpiry. rewrite H. reflexivity. Qed.

(** Once the expiry check passes, one request is sent and its outcome
    decides the result. *)
Lemma verify_after_check self h net credential calls :
  isValid (checkExpiry self h credential) = true ->
  JharSevaVerifier.verify self h net credential calls =
  (Return (remoteResult net (requestOf self credential)),
   calls ++ [requestOf self credential]).
Proof.
  intros Hvalid.
  unfold JharSevaVerifier.verify, tryCatch, bind, post, lift, ret, remoteResult.
  rewrite Hvalid. simpl. fold (requestOf self credential).
  destruct (net (requestOf self credential)) as [response|e]; [|reflexivity].
  destruct (translateResponse response); reflexivity.
Qed.

(** The expiry value [0], the first instant of 1970, is falsy: the check
    is skipped and the request is sent. *)
Example epoch_expiry_run :
  JharSevaVerifier.verify Samples.jharseva Samples.host Samples.accepting
    (Some {[ "validUntil" := Js.VNum 0 ]}) [] =
  (Return {| success := true;
             message := "Credential verified successfully.";
             errors := None |},
   [requestOf Samples.jharseva (Some {[ "validUntil" := Js.VNum 0 ]})]).
Proof. reflexivity. Qed.

(** C6, at the expiry value [0]: the credential holds the expiry field,
    its value is the first instant of 1970, a date in the past, and yet
    the check is skipped, because the guard that stands for a missing
    field tests the value for falsiness; the request is sent and the
    answer of the remote end is the result, where the claim has the
    credential rejected without a request. *)
Theorem present_falsy_expiry_skipped :
  let fields : gmap string Js.val := {[ "validUntil" := Js.VNum 0 ]} in
  fields !! expiryField Samples.jharseva = Some (Js.VNum 0) /\
  Js.newDate Samples.host (Js.VNum 0) = Return (Some 0%Z) /\
  (0 < Js.now Samples.host)%Z /\
  checkExpiry Samples.jharseva Samples.host (Some fields)
  = {| isValid := true; checkError := None |} /\
  JharSevaVerifier.verify Samples.jharseva Samples.host Samples.accepting
    (Some fields) []
  = (Return {| success := true;
               message := "Credential verified successfully.";
               errors := None |},
     [requestOf Samples.jharseva (Some fields)]).
Proof. repeat split. Qed.

(** Not every credential whose expiry field is a date in the past is
    rejected without a request: the expiry value [0] is such a date. *)
Lemma epoch_expiry_not_checked :
  ~ (forall (self : JharSevaVerifier.t) (h : Js.Host) (net : Network)
            (fields : gmap string Js.val) (v : Js.val) (t : Z),
        fields !! expiryField self = Some v ->
        Js.newDate h v = Return (Some t) ->
        (t < Js.now h)%Z ->
        exists r,
          JharSevaVerifier.verify self h net (Some fields) [] = (Return r, []) /\
          success r = false).
Proof.
  intros Hclaim.
  destruct (Hclaim Samples.jharseva Samples.host Samples.accepting
              {[ "validUntil" := Js.VNum 0 ]} (Js.VNum 0) 0%Z)
    as (r & Hrun & _); [reflexivity | reflexivity | reflexivity |].
  rewrite epoch_expiry_run in Hrun. discriminate Hrun.
Qed.

(** Where the guard does what its comment says: a credential whose
    expiry field holds a truthy value that is a date in the past is
    rejected with the expiry error and no request is sent; a credential
    without the expiry field skips the check, one request is sent and
    its outcome is the result (the field name being no member of
    [Object.prototype]).  A falsy value in the field skips the check
    too. *)
Theorem expiry_check (self : JharSevaVerifier.t) (h : Js.Host)
    (net : Network) (fields : gmap string Js.val) (calls : list Request) :
  (forall v t,
      fields !! expiryField self = Some v ->
      Js.truthy v = true ->
      Js.newDate h v = Return (Some t) ->
      (t < Js.now h)%Z ->
      JharSevaVerifier.verify self h net (Some fields) calls =
      (Return expiredResult, calls)) /\
  (fields !! expiryField self = None ->
   Js.inObjectPrototype (expiryField self) = false ->
   JharSevaVerifier.verify self h net (Some fields) calls =
   (Return (remoteResult net (requestOf self (Some fields))),
    calls ++ [requestOf self (Some fields)])) /\
  (forall v,
      fields !! expiryField self = Some v ->
      Js.truthy v = false ->
      JharSevaVerifier.verify self h net (Some fields) calls =
      (Return (remoteResult net (requestOf self (Some fields))),
       calls ++ [requestOf self (Some fields)])).
Proof.
  split; [|split].
  - intros v t Hv Htruthy Hdate Hpast.
    unfold JharSevaVerifier.verify, tryCatch.
    rewrite (checkExpiry_expired self h fields v t Hv Htruthy Hdate Hpast).
    reflexivity.
  - intros Hnone Hproto. apply verify_after_check.
    rewrite checkExpiry_skipped; [reflexivity|].
    unfold Js.get. rewrite Hnone, Hproto. reflexivity.
  - intros v Hv Hfalsy. apply verify_after_check.
    rewrite checkExpiry_skipped; [reflexivity|].
    unfold Js.get. rewrite Hv. exact Hfalsy.
Qed.

Lemma expiry_check_witness :
  JharSevaVerifier.verify Samples.jharseva Samples.host Samples.accepting
    (Some {[ "validUntil" := Js.VStr "2020-01-01T00:00:00Z" ]}) [] =
    (Return expiredResult, []) /\
  JharSevaVerifier.verify Samples.jharseva Samples.host Samples.accepting
    (Some {[ "id" := Js.VStr "urn:uuid:1" ]}) [] =
    (Return (remoteResult Samples.accepting
               (requestOf Samples.jharseva (Some {[ "id" := Js.VStr "urn:uuid:1" ]}))),
     [] ++ [requestOf Samples.jharseva (Some {[ "id" := Js.VStr "urn:uuid:1" ]})]).
Proof.
  split.
  - apply (proj1 (expiry_check Samples.jharseva Samples.host Samples.accepting
                    {[ "validUntil" := Js.VStr "2020-01-01T00:00:00Z" ]} [])
             (Js.VStr "2020-01-01T00:00:00Z") 1577836800000%Z);
      [reflexivity | reflexivity | reflexivity | reflexivity].
  - apply (proj1 (proj2 (expiry_check Samples.jharseva Samples.host
                           Samples.accepting
                           {[ "id" := Js.VStr "urn:uuid:1" ]} [])));
      reflexivity.
Defined.

(** *** The shape of results *)

Lemma mapErrors_length items l :
  mapErrors items = Return l -> length l = length items.
Proof.
  revert l. induction items as [|e items IH]; intros l; simpl.
  - intros [= <-]. reflexivity.
  - destruct (pushError e) as [x|m]; [|discriminate].
    destruct (mapErrors items) as [xs|m]; [|discriminate].
    intros [= <-]. simpl. f_equal. apply IH. reflexivity.
Qed.

(** A translated response carries errors exactly when the response
    reports some. *)
Lemma translateResponse_shape response r :
  translateResponse response = Return r ->
  if errorPresent (errorOf response)
  then success r = false /\ hasErrors r
  else success r = true /\ errors r = None.
Proof.
  unfold translateResponse.
  destruct (errorOf response) as [| |items|e]; simpl.
  - intros [= <-]. split; reflexivity.
  - intros [= <-]. split; reflexivity.
  - destruct items as [|i items]; [intros [= <-]; split; reflexivity|].
    cbn [length Nat.ltb Nat.leb].
    destruct (mapErrors (i :: items)) as [l|m] eqn:Hmap; [|discriminate].
    apply mapErrors_length in Hmap. destruct l as [|x l]; [discriminate|].
    cbn [length Nat.ltb Nat.leb]. intros [= <-]. split; [reflexivity|].
    eexists. split; [reflexivity|discriminate].
  - intros [= <-]. split; [reflexivity|].
    eexists. split; [reflexivity|discriminate].
Qed.

Lemma translateResponse_throws response m :
  translateResponse response = Throw m ->
  errorPresent (errorOf response) = true.
Proof.
  unfold translateResponse.
  destruct (errorPresent (errorOf response)); [reflexivity|].
  discriminate.
Qed.

(** Split the shape of a result into its parts and close each by
    what the result is. *)
Ltac shape :=
  repeat match goal with
         | |- _ /\ _ => split
         | |- _ <-> _ => split
         | |- _ -> _ => intro
         | H : hasErrors _ |- _ => destruct H as (? & ? & ?)
         | H : _ /\ _ |- _ => destruct H
         end;
  simpl in *;
  try reflexivity;
  try congruence;
  try (eexists; split; [reflexivity | discriminate]);
  try (eexists; split; [eassumption | assumption]).

(** C4: [verify] of either variant returns a result; its [errors] field
    is there, and then not empty, exactly when the result is a failure
    reached on a branch that builds errors (the expiry check rejects,
    the network call fails, the remote end reports errors); a success
    has no [errors] field, and the stub's rejection has none either. *)
Theorem errors_iff_error_path (v : Variants.t) (h : Js.Host) (net : Network)
    (credential : Credential) (calls : list Request) :
  exists r calls',
    Variants.verify v h net credential calls = (Return r, calls') /\
    (hasErrors r <->
     success r = false /\ errorProducing (pathOf v h net credential) = true) /\
    (success r = true -> errors r = None) /\
    errors r <> Some [] /\
    (v = Signature ->
     r = {| success := false;
            message := "Credential verification using signature failed.";
            errors := None |}).
Proof.
  destruct v as [|self].
  - do 2 eexists. split; [reflexivity|]. shape.
  - simpl.
    destruct (isValid (checkExpiry self h credential)) eqn:Hvalid.
    + rewrite (verify_after_check self h net credential calls Hvalid).
      do 2 eexists. split; [reflexivity|].
      unfold remoteResult.
      destruct (net (requestOf self credential)) as [response|e]; [|shape].
      destruct (translateResponse response) as [r|m] eqn:Htr.
      * apply translateResponse_shape in Htr.
        destruct (errorPresent (errorOf response)); shape.
      * rewrite (translateResponse_throws _ _ Htr). shape.
    + unfold JharSevaVerifier.verify, tryCatch. rewrite Hvalid.
      do 2 eexists. split; [reflexivity|]. shape.
Qed.

Lemma errors_iff_error_path_witness :
  exists r,
    Variants.verify Signature Samples.host Samples.accepting None [] =
      (Return r, []) /\
    success r = false /\ errors r = None.
Proof.
  destruct (errors_iff_error_path Signature Samples.host Samples.accepting None [])
    as (r & calls' & Hrun & _ & _ & _ & Hstub).
  exists r. rewrite (Hstub eq_refl) in *.
  split; [|split; reflexivity].
  inversion Hrun. reflexivity.
Defined.
End VerifyProps.

(** * Further properties of the registry *)

Module RegistryMore.
Import JsString Registry RegistrySpec RegistryRuns.

Lemma lowerChar_idempotent (c : ascii) : lowerChar (lowerChar c) = lowerChar c.
Proof. destruct c as [[] [] [] [] [] [] [] []]; reflexivity. Qed.

Lemma toLowerCase_idempotent (s : string) :
  toLowerCase (toLowerCase s) = toLowerCase s.
Proof.
  induction s as [|c s IH]; [reflexivity|].
  cbn [toLowerCase]. rewrite lowerChar_idempotent, IH. reflexivity.
Qed.

Lemma getAllIssuers_run w c :
  getAllIssuers w c =
  (Return (map (onlineIssuerOf w) (registered (readdirSync w onlineVerifiersPath))
           ++ map (offlineIssuerOf w)
                (registered (readdirSync w offlineVerifiersPath))),
   (c ++ listingLogs "Error discovering online verifiers: "
           (readdirSync w onlineVerifiersPath) (entryLogs w onlineVerifiersPath))
   ++ listingLogs "Error discovering offline verifiers: "
        (readdirSync w offlineVerifiersPath) (entryLogs w offlineVerifiersPath)).
Proof.
  unfold getAllIssuers, bind, ret.
  rewrite discoverOnlineVerifiers_run, discoverOfflineVerifiers_run.
  reflexivity.
Qed.

Lemma onlineIssuerOf_lowercase w file :
  toLowerCase (id (onlineIssuerOf w file)) = id (onlineIssuerOf w file).
Proof. apply toLowerCase_idempotent. Qed.

Lemma offlineIssuerOf_lowercase w file :
  toLowerCase (id (offlineIssuerOf w file)) = id (offlineIssuerOf w file).
Proof.
  unfold offlineIssuerOf.
  destruct (instantiate w (join offlineVerifiersPath file));
    apply toLowerCase_idempotent.
Qed.

(** X1: every id of the catalog is in lower case, whatever the
    directories hold and whatever fails. *)
Theorem catalog_ids_lowercase (w : World) (c : list LogLine) :
  exists all c',
    getAllIssuers w c = (Return all, c') /\
    Forall (fun i => toLowerCase (id i) = id i) all.
Proof.
  rewrite getAllIssuers_run. do 2 eexists. split; [reflexivity|].
  apply List.Forall_forall. intros i Hi.
  apply List.in_app_or in Hi as [Hi|Hi];
    apply List.in_map_iff in Hi as (file & <- & _).
  - apply onlineIssuerOf_lowercase.
  - apply offlineIssuerOf_lowercase.
Qed.

(** The type test of [getIssuersByType], one comparison at a time. *)
Lemma getIssuersByType_cases w (ty : option string) :
  getIssuersByType w ty =
  match ty with
  | Some s =>
      if String.eqb s "online" then discoverOnlineVerifiers w
      else if String.eqb s "offline" then discoverOfflineVerifiers w
      else getAllIssuers w
  | None => getAllIssuers w
  end.
Proof.
  destruct ty as [s|]; [|reflexivity].
  unfold getIssuersByType.
  repeat (destruct s as [|[[] [] [] [] [] [] [] []] s]; try reflexivity).
Qed.

Lemma onlineIssuerOf_type w file : type (onlineIssuerOf w file) = "online".
Proof. reflexivity. Qed.

Lemma offlineIssuerOf_type w file : type (offlineIssuerOf w file) = "offline".
Proof.
  unfold offlineIssuerOf.
  destruct (instantiate w (join offlineVerifiersPath file)); reflexivity.
Qed.

(** X2: asked for the type [online], or [offline], the listing holds
    entries of that type only; asked for any other type, or for none, it
    holds the online entries followed by the offline entries. *)
Theorem listing_by_type (w : World) (c : list LogLine) :
  exists online offline,
    fst (getIssuersByType w (Some "online") c) = Return online /\
    fst (getIssuersByType w (Some "offline") c) = Return offline /\
    Forall (fun i => type i = "online") online /\
    Forall (fun i => type i = "offline") offline /\
    forall ty,
      ty <> Some "online" -> ty <> Some "offline" ->
      fst (getIssuersByType w ty c) = Return (online ++ offline).
Proof.
  exists (map (onlineIssuerOf w) (registered (readdirSync w onlineVerifiersPath))),
    (map (offlineIssuerOf w) (registered (readdirSync w offlineVerifiersPath))).
  split; [cbn [getIssuersByType]; rewrite discoverOnlineVerifiers_run; reflexivity|].
  split; [cbn [getIssuersByType]; rewrite discoverOfflineVerifiers_run; reflexivity|].
  split; [|split].
  - apply List.Forall_forall. intros i Hi.
    apply List.in_map_iff in Hi as (file & <- & _). apply onlineIssuerOf_type.
  - apply List.Forall_forall. intros i Hi.
    apply List.in_map_iff in Hi as (file & <- & _). apply offlineIssuerOf_type.
  - intros ty Hon Hoff. rewrite getIssuersByType_cases.
    destruct ty as [s|]; [|rewrite getAllIssuers_run; reflexivity].
    destruct (String.eqb_spec s "online") as [->|_]; [congruence|].
    destruct (String.eqb_spec s "offline") as [->|_]; [congruence|].
    rewrite getAllIssuers_run. reflexivity.
Qed.

Lemma listing_by_type_witness :
  exists online offline,
    fst (getIssuersByType MoreSamples.configured (Some "online") []) = Return online /\
    fst (getIssuersByType MoreSamples.configured (Some "offline") []) = Return offline /\
    fst (getIssuersByType MoreSamples.configured None []) = Return (online ++ offline) /\
    fst (getIssuersByType MoreSamples.configured (Some "postal") [])
      = Return (online ++ offline).
Proof.
  destruct (listing_by_type MoreSamples.configured [])
    as (online & offline & Hon & Hoff & _ & _ & Hother).
  exists online, offline. split; [exact Hon|]. split; [exact Hoff|].
  split; apply Hother; discriminate.
Defined.

Lemma find_app {A} (p : A -> bool) (l1 l2 : list A) :
  List.find p (l1 ++ l2) =
  match List.find p l1 with
  | Some x => Some x
  | None => List.find p l2
  end.
Proof.
  induction l1 as [|x l1 IH]; [reflexivity|].
  simpl. destruct (p x); [reflexivity|exact IH].
Qed.

(** X3: [getIssuerById] answers with the first entry of the catalog,
    the online entries followed by the offline entries, that has the id
    asked for: no entry before it has that id.  It answers with nothing
    only when no entry has the id.  So an online entry hides an offline
    entry with the same id. *)
Theorem getIssuerById_first (w : World) (c : list LogLine) (wanted : string) :
  exists online offline found c',
    fst (discoverOnlineVerifiers w c) = Return online /\
    fst (discoverOfflineVerifiers w c) = Return offline /\
    getAllIssuers w c = (Return (online ++ offline), c') /\
    getIssuerById w wanted c = (Return found, c') /\
    (forall i, found = Some i ->
       id i = wanted /\
       exists before after,
         online ++ offline = before ++ i :: after /\
         Forall (fun j => id j <> wanted) before) /\
    (found = None -> forall i, In i (online ++ offline) -> id i <> wanted) /\
    (forall file,
        In file (registered (readdirSync w onlineVerifiersPath)) ->
        verifierNameToIssuerId file = wanted ->
        exists i, found = Some i /\ type i = "online").
Proof.
  unfold getIssuerById, bind, ret. rewrite getAllIssuers_run.
  rewrite discoverOnlineVerifiers_run, discoverOfflineVerifiers_run.
  do 4 eexists. split; [reflexivity|]. split; [reflexivity|].
  split; [reflexivity|]. split; [reflexivity|].
  split; [|split].
  - intros i Hfound.
    destruct (FactoryProps.find_first _ _ _ Hfound)
      as (before & after & Hsplit & Heq & Hbefore).
    apply String.eqb_eq in Heq. split; [exact Heq|].
    exists before, after. split; [exact Hsplit|].
    apply List.Forall_forall. intros j Hj.
    rewrite List.Forall_forall in Hbefore.
    apply String.eqb_neq. exact (Hbefore j Hj).
  - intros Hnone i Hin Hid.
    apply (List.find_none _ _ Hnone) in Hin.
    rewrite Hid, String.eqb_refl in Hin. discriminate.
  - intros file Hin Hid. rewrite find_app.
    destruct (List.find _ (map (onlineIssuerOf w) _)) as [i|] eqn:Hfind.
    + exists i. split; [reflexivity|].
      apply List.find_some in Hfind as [Hi _].
      apply List.in_map_iff in Hi as (f & <- & _). reflexivity.
    + exfalso.
      assert (Hentry : In (onlineIssuerOf w file)
                (map (onlineIssuerOf w)
                   (registered (readdirSync w onlineVerifiersPath))))
        by (apply List.in_map; exact Hin).
      apply (List.find_none _ _ Hfind) in Hentry.
      cbn [id onlineIssuerOf] in Hentry.
      rewrite Hid, String.eqb_refl in Hentry. discriminate.
Qed.

Lemma getIssuerById_first_witness :
  exists i,
    fst (getIssuerById MoreSamples.configured "jharseva" []) = Return (Some i) /\
    type i = "online".
Proof.
  destruct (getIssuerById_first MoreSamples.configured [] "jharseva")
    as (online & offline & found & c' & _ & _ & _ & Hrun & _ & _ & Honline).
  destruct (Honline "JharSevaVerifier.js") as (i & -> & Hty);
    [left; reflexivity | reflexivity |].
  exists i. rewrite Hrun. split; [reflexivity|exact Hty].
Defined.

(** X4: when the directory is listed and every class in it is built,
    discovery writes nothing to the console. *)
Theorem discovery_silent (w : World) (c : list LogLine) (files : list string) :
  readdirSync w onlineVerifiersPath = Return files ->
  (forall file,
      In file files -> endsWith "Verifier.js" file = true ->
      exists inst, instantiate w (join onlineVerifiersPath file) = Return inst) ->
  snd (discoverOnlineVerifiers w c) = c.
Proof.
  intros Hdir Hbuilt. rewrite discoverOnlineVerifiers_run. cbn [snd].
  unfold listingLogs, registered. rewrite Hdir.
  assert (Hnil : forall l,
             (forall file, In file l -> In file files) ->
             flat_map (entryLogs w onlineVerifiersPath)
               (List.filter (endsWith "Verifier.js") l) = []).
  { induction l as [|f l IH]; intros Hsub; [reflexivity|].
    cbn [List.filter].
    destruct (endsWith "Verifier.js" f) eqn:Hends.
    - cbn [flat_map]. unfold entryLogs at 1.
      destruct (Hbuilt f (Hsub f (or_introl eq_refl)) Hends) as [inst ->].
      apply IH. intros g Hg. apply Hsub. right. exact Hg.
    - apply IH. intros g Hg. apply Hsub. right. exact Hg. }
  rewrite (Hnil files (fun _ H => H)). apply app_nil_r.
Qed.

Lemma discovery_silent_witness :
  snd (discoverOnlineVerifiers MoreSamples.configured [Warn "earlier"])
    = [Warn "earlier"].
Proof.
  apply (discovery_silent MoreSamples.configured [Warn "earlier"]
           ["JharSevaVerifier.js"; ".gitkeep"]).
  - reflexivity.
  - intros file _ _. exists (VerifierInterface.new None).
    unfold MoreSamples.configured, instantiate.
    destruct (String.eqb_spec (join onlineVerifiersPath file)
                Samples.signatureModule) as [Heq|_]; [|reflexivity].
    exfalso. revert Heq. unfold join, onlineVerifiersPath,
      Samples.signatureModule, offlineVerifiersPath. discriminate.
Defined.

(** *** The title constant of a source text *)

Lemma spanNonQuote_run (s run rest : string) :
  spanNonQuote s = (run, rest) -> More.quoteFree run = true.
Proof.
  revert run rest. induction s as [|c s IH]; intros run rest.
  - intros [= <- <-]. reflexivity.
  - cbn [spanNonQuote]. destruct (isQuote c) eqn:Hq.
    + intros [= <- <-]. reflexivity.
    + destruct (spanNonQuote s) as [run' rest'] eqn:Hspan.
      intros [= <- <-]. unfold More.quoteFree. cbn [allChars].
      rewrite Hq. apply (IH run' rest' eq_refl).
Qed.

Lemma matchTitleAt_sound (s t : string) :
  matchTitleAt s = Some t -> nonEmpty t = true /\ More.quoteFree t = true.
Proof.
  unfold matchTitleAt. intros H.
  destruct (stripPrefix "const" s) as [r1|]; [|discriminate]. cbn in H.
  destruct r1 as [|c r1']; [discriminate|].
  destruct (isSpace c); [|discriminate].
  destruct (stripPrefix "_title" _) as [r2|]; [|discriminate]. cbn in H.
  destruct (stripPrefix "=" _) as [r3|]; [|discriminate]. cbn in H.
  destruct (skipSpaces r3) as [|q r4]; [discriminate|].
  destruct (isQuote q); [|discriminate].
  destruct (spanNonQuote r4) as [run rest] eqn:Hspan.
  destruct run as [|a run]; [discriminate|].
  destruct rest as [|b rest]; [discriminate|].
  injection H as <-. split; [reflexivity|].
  apply (spanNonQuote_run _ _ _ Hspan).
Qed.

(** X5: a title taken from a source text is never empty and holds no
    quote character. *)
Theorem titleMatch_sound (fileContent t : string) :
  titleMatch fileContent = Some t ->
  nonEmpty t = true /\ More.quoteFree t = true.
Proof.
  induction fileContent as [|c rest IH]; cbn [titleMatch].
  - destruct (matchTitleAt "") as [t'|] eqn:Hm; [|discriminate].
    intros [= <-]. exact (matchTitleAt_sound _ _ Hm).
  - destruct (matchTitleAt (String c rest)) as [t'|] eqn:Hm.
    + intros [= <-]. exact (matchTitleAt_sound _ _ Hm).
    + exact IH.
Qed.

Lemma titleMatch_sound_witness :
  nonEmpty "sunbird-rc" = true /\ More.quoteFree "sunbird-rc" = true.
Proof.
  apply (titleMatch_sound "// title\nconst  _title='sunbird-rc' ;" "sunbird-rc").
  reflexivity.
Defined.

Lemma spanNonQuote_append (t rest : string) (q : ascii) :
  More.quoteFree t = true -> isQuote q = true ->
  spanNonQuote (t +:+ String q rest) = (t, String q rest).
Proof.
  intros Hfree Hq. induction t as [|c t IH].
  - change ("" +:+ String q rest) with (String q rest).
    cbn [spanNonQuote]. rewrite Hq. reflexivity.
  - unfold More.quoteFree in Hfree. cbn [allChars] in Hfree.
    apply andb_true_iff in Hfree as [Hc Hrest].
    apply negb_true_iff in Hc.
    change (String c t +:+ String q rest) with (String c (t +:+ String q rest)).
    cbn [spanNonQuote]. rewrite Hc, (IH Hrest). reflexivity.
Qed.

(** X6: a source text that begins with the declaration of the title
    constant, the value between any two quote characters, gives that
    value as its title, when the value is not empty and holds no quote. *)
Theorem titleMatch_declaration (q1 q2 : ascii) (value rest : string) :
  isQuote q1 = true -> isQuote q2 = true ->
  nonEmpty value = true -> More.quoteFree value = true ->
  titleMatch (More.titleDeclaration q1 q2 value rest) = Some value.
Proof.
  intros Hq1 Hq2 Hne Hfree.
  assert (Hm : matchTitleAt (More.titleDeclaration q1 q2 value rest) = Some value).
  { unfold matchTitleAt, More.titleDeclaration.
    change (stripPrefix "const"
              ("const _title = " +:+ String q1 (value +:+ String q2 rest)))
      with (Some (" _title = " +:+ String q1 (value +:+ String q2 rest))).
    cbn [mbind option_bind].
    change (" _title = " +:+ String q1 (value +:+ String q2 rest))
      with (String " " ("_title = " +:+ String q1 (value +:+ String q2 rest))).
    change (isSpace " ") with true. cbv iota.
    change (skipSpaces
              (String " " ("_title = " +:+ String q1 (value +:+ String q2 rest))))
      with ("_title = " +:+ String q1 (value +:+ String q2 rest)).
    change (stripPrefix "_title"
              ("_title = " +:+ String q1 (value +:+ String q2 rest)))
      with (Some (" = " +:+ String q1 (value +:+ String q2 rest))).
    cbn [mbind option_bind].
    change (stripPrefix "=" (skipSpaces (" = " +:+ String q1 (value +:+ String q2 rest))))
      with (Some (String " " (String q1 (value +:+ String q2 rest)))).
    cbn [mbind option_bind].
    assert (Hskip : skipSpaces (String " " (String q1 (value +:+ String q2 rest)))
                    = String q1 (value +:+ String q2 rest)).
    { cbn [skipSpaces]. change (isSpace " ") with true. cbv iota.
      assert (Hns : isSpace q1 = false).
      { revert Hq1. destruct q1 as [[] [] [] [] [] [] [] []];
          (reflexivity || discriminate). }
      rewrite Hns. reflexivity. }
    rewrite Hskip, Hq1, (spanNonQuote_append value rest q2 Hfree Hq2).
    destruct value; [discriminate|reflexivity]. }
  destruct (More.titleDeclaration q1 q2 value rest) eqn:Hs;
    cbn [titleMatch]; rewrite Hm; reflexivity.
Qed.

Lemma titleMatch_declaration_witness :
  titleMatch (More.titleDeclaration "'" "'" "sunbird-rc" ";") = Some "sunbird-rc".
Proof. apply titleMatch_declaration; reflexivity. Defined.


End RegistryMore.

(** * Further properties of the capability *)

Module InterfaceMore.
Import JsString VerifierInterface.

(** X8: a title that is set and not empty is the title read back,
    whatever file name and main module there are, and the last title set
    wins; setting the empty title is as setting none. *)
Theorem title_set_then_get (main : option string) (self : VerifierInterface.t)
    (title earlier : string) :
  nonEmpty title = true ->
  getTitle main (setTitle title self) = title /\
  getTitle main (setTitle title (setTitle earlier self)) = title /\
  getTitle main (setTitle "" self)
    = getTitle main (VerifierInterface.new (_filename self)).
Proof.
  intros Hne. unfold getTitle, setTitle. cbn [_title _filename truthy].
  rewrite Hne. repeat split.
Qed.

Lemma title_set_then_get_witness :
  getTitle (Some "/app/src/server.js")
    (setTitle "sunbird-rc"
       (VerifierInterface.new (Some "/app/verifiers/SignatureVerifier.js")))
  = "sunbird-rc" /\
  getTitle (Some "/app/src/server.js")
    (setTitle ""
       (VerifierInterface.new (Some "/app/verifiers/SignatureVerifier.js")))
  = "SignatureVerifier".
Proof.
  destruct (title_set_then_get (Some "/app/src/server.js")
              (VerifierInterface.new (Some "/app/verifiers/SignatureVerifier.js"))
              "sunbird-rc" "") as (Hget & _ & Hempty); [reflexivity|].
  split; [exact Hget|]. rewrite Hempty. reflexivity.
Defined.
End InterfaceMore.

(** * Further properties of the factory *)

Module FactoryMore.
Import JsString VerifierFactory.

Lemma toLowerCase_length (s : string) :
  String.length (toLowerCase s) = String.length s.
Proof. induction s as [|c s IH]; [reflexivity|]. cbn. rewrite IH. reflexivity. Qed.

Lemma toLowerCase_drop (n : nat) (s : string) :
  toLowerCase (drop n s) = drop n (toLowerCase s).
Proof.
  revert s. induction n as [|n IH]; intros s; [destruct s; reflexivity|].
  destruct s as [|c s]; [reflexivity|]. cbn [drop toLowerCase]. apply IH.
Qed.

Lemma toLowerCase_take (n : nat) (s : string) :
  toLowerCase (take n s) = take n (toLowerCase s).
Proof.
  revert s. induction n as [|n IH]; intros s; [destruct s; reflexivity|].
  destruct s as [|c s]; [reflexivity|].
  cbn [take toLowerCase]. rewrite IH. reflexivity.
Qed.

Lemma toLowerCase_append (a b : string) :
  toLowerCase (a +:+ b) = toLowerCase a +:+ toLowerCase b.
Proof.
  induction a as [|c a IH]; [reflexivity|].
  change (toLowerCase (String c (a +:+ b))
          = String (lowerChar c) (toLowerCase a +:+ toLowerCase b)).
  cbn [toLowerCase]. rewrite IH. reflexivity.
Qed.

(** Removing a suffix whatever its letter case, then lowering, is
    lowering, then removing the suffix as it is written. *)
Lemma stripSuffix_lowered (suffix s : string) :
  toLowerCase (stripSuffix true suffix s)
  = stripSuffix false suffix (toLowerCase s).
Proof.
  unfold stripSuffix.
  rewrite toLowerCase_length, <- toLowerCase_drop.
  destruct ((String.length suffix <=? String.length s)%nat
            && String.eqb (toLowerCase (drop (String.length s - String.length suffix) s))
                 suffix).
  - apply toLowerCase_take.
  - reflexivity.
Qed.

Lemma baseName_lowered (file : string) :
  baseName file
  = stripSuffix false "verifier" (stripSuffix false ".js" (toLowerCase file)).
Proof.
  unfold baseName. rewrite !stripSuffix_lowered. reflexivity.
Qed.

(** X9: the base name the factory compares depends on the file name
    through its lower case only: it is the lowered name without a
    trailing [.js] and then without a trailing [verifier].  So two file
    names that differ in letter case only have one base name. *)
Theorem baseName_of_lowered_name (file : string) :
  baseName file
  = stripSuffix false "verifier" (stripSuffix false ".js" (toLowerCase file)) /\
  forall other,
    toLowerCase other = toLowerCase file -> baseName other = baseName file.
Proof.
  split; [apply baseName_lowered|].
  intros other Hcase. rewrite !baseName_lowered, Hcase. reflexivity.
Qed.

Lemma baseName_of_lowered_name_witness :
  baseName "ACMEVERIFIER.JS" = baseName "AcmeVerifier.js".
Proof.
  apply (proj2 (baseName_of_lowered_name "AcmeVerifier.js")). reflexivity.
Defined.

Lemma baseName_registered (base : string) :
  baseName (base +:+ "Verifier.js") = toLowerCase base.
Proof.
  rewrite baseName_lowered, toLowerCase_append.
  change (toLowerCase "Verifier.js") with ("verifier" +:+ ".js").
  rewrite <- RegistryNames.append_assoc,
    !RegistryNames.stripSuffix_append.
  reflexivity.
Qed.

Lemma letter_not_dot (c : ascii) :
  isAsciiLetter c = true -> Ascii.eqb "." c = false.
Proof. destruct c as [[] [] [] [] [] [] [] []]; (reflexivity || discriminate). Qed.

Lemma letters_clear_of_extension (base suffix : string) :
  allChars isAsciiLetter base = true ->
  RegistrySpec.clearBefore ".js" base suffix = true.
Proof.
  induction base as [|c base IH]; [reflexivity|].
  cbn [allChars]. intros H. apply andb_true_iff in H as [Hc Hrest].
  cbn [RegistrySpec.clearBefore].
  change (String c base +:+ suffix) with (String c (base +:+ suffix)).
  cbn [startsWith]. rewrite (letter_not_dot c Hc), (IH Hrest). reflexivity.
Qed.

(** X10: the id the catalog shows for an online verifier selects it.
    For a file [base +:+ "Verifier.js"] of the online directory whose
    base is made of letters and holds no earlier [Verifier], the catalog
    id, given as issuer name, resolves to the class of the first file of
    the listing with that base name, once that class is built. *)
Theorem catalog_id_selects (w : World) (c : list string)
    (files : list string) (base : string) :
  readdirSync w = Return files ->
  In (base +:+ "Verifier.js") files ->
  onlyLetters base = true ->
  RegistrySpec.clearBefore "Verifier" base "Verifier" = true ->
  exists before resolved after,
    files = before ++ resolved :: after /\
    baseName resolved
      = Registry.verifierNameToIssuerId (base +:+ "Verifier.js") /\
    Forall (fun f => baseName f
                     <> Registry.verifierNameToIssuerId (base +:+ "Verifier.js"))
      before /\
    (construct w (stripSuffix false ".js" resolved)
       (Samples.online (Registry.verifierNameToIssuerId (base +:+ "Verifier.js")))
       = Return tt ->
     getVerifier w
       (Some (Samples.online
                (Registry.verifierNameToIssuerId (base +:+ "Verifier.js")))) c
     = (Return (Online (stripSuffix false ".js" resolved)
                  (Samples.online
                     (Registry.verifierNameToIssuerId (base +:+ "Verifier.js")))),
        c)).
Proof.
  intros Hdir Hin Hletters Hclear.
  assert (Hall : allChars isAsciiLetter base = true)
    by (destruct base; [discriminate|exact Hletters]).
  destruct (RegistryNames.issuerId_suffix_first base
              (letters_clear_of_extension base "Verifier.js" Hall) Hclear)
    as [Hid _].
  rewrite Hid.
  destruct (List.find (fun f => String.eqb (baseName f) (toLowerCase (toLowerCase base)))
              files) as [resolved|] eqn:Hfind.
  - destruct (FactoryProps.find_first _ _ _ Hfind)
      as (before & after & Hsplit & Heq & Hbefore).
    apply String.eqb_eq in Heq.
    rewrite RegistryMore.toLowerCase_idempotent in Heq.
    exists before, resolved, after.
    split; [exact Hsplit|]. split; [exact Heq|]. split.
    + apply List.Forall_forall. intros f Hf.
      rewrite List.Forall_forall in Hbefore.
      specialize (Hbefore f Hf).
      rewrite RegistryMore.toLowerCase_idempotent in Hbefore.
      apply String.eqb_neq. exact Hbefore.
    + intros Hctor.
      apply FactoryProps.getVerifier_online_found
        with (name := toLowerCase base) (files := files); try reflexivity;
        try assumption.
      rewrite <- Hletters.
      apply FactoryProps.onlyLetters_toLowerCase,
        RegistryMore.toLowerCase_idempotent.
  - exfalso. apply (List.find_none _ _ Hfind) in Hin.
    rewrite baseName_registered, RegistryMore.toLowerCase_idempotent,
      String.eqb_refl in Hin.
    discriminate.
Qed.

Lemma catalog_id_selects_witness :
  exists className,
    getVerifier Samples.factory (Some (Samples.online "jharseva")) []
    = (Return (Online className (Samples.online "jharseva")), []).
Proof.
  destruct (catalog_id_selects Samples.factory []
              ["AcmeVerifier.js"; "JharSevaVerifier.js"] "JharSeva")
    as (before & resolved & after & _ & _ & _ & Hsel);
    [reflexivity | right; left; reflexivity | reflexivity | reflexivity |].
  exists (stripSuffix false ".js" resolved). exact (Hsel eq_refl).
Defined.

(** The catalog id of a file with an earlier [Verifier] in its name is
    not the base name the factory compares. *)
Example catalog_id_does_not_select :
  Registry.verifierNameToIssuerId "VerifierHubVerifier.js" = "hubverifier" /\
  baseName "VerifierHubVerifier.js" = "verifierhub".
Proof. split; reflexivity. Qed.

(** The online branch with a well-formed name, up to the look-up. *)
Lemma getVerifier_online_lookup w c cfg name :
  default "online" (method cfg) = "online" ->
  issuerName cfg = Some name ->
  onlyLetters name = true ->
  getVerifier w (Some cfg) c =
  match readdirSync w with
  | Throw e =>
      (Throw ("Unknown online verifier: " +:+ name), More.consoleAfter w c e)
  | Return files =>
      match List.find
              (fun f => String.eqb (baseName f) (toLowerCase name)) files with
      | None =>
          (Throw ("Unknown online verifier: " +:+ name),
           More.consoleAfter w c
             ("No verifier file found for issuer: " +:+ name))
      | Some file =>
          match construct w (stripSuffix false ".js" file) cfg with
          | Return _ => (Return (Online (stripSuffix false ".js" file) cfg), c)
          | Throw e =>
              (Throw ("Unknown online verifier: " +:+ name),
               More.consoleAfter w c e)
          end
      end
  end.
Proof.
  intros Hm Hn Hletters.
  unfold getVerifier, More.consoleAfter. simpl. rewrite Hm, Hn. simpl.
  assert (Hne : nonEmpty name = true) by (destruct name; [discriminate|reflexivity]).
  rewrite Hne. simpl.
  unfold tryCatch, bind, lift, throw, ret, modify. rewrite Hletters. simpl.
  destruct (readdirSync w) as [files|e].
  - destruct (List.find _ files) as [file|].
    + destruct (construct w _ cfg) as [[]|e]; [reflexivity|].
      destruct (bool_decide _); reflexivity.
    + destruct (bool_decide _); reflexivity.
  - destruct (bool_decide _); reflexivity.
Qed.

(** X12: the factory writes to the console only when it throws, and in
    production never: a call that returns a verifier leaves the console
    as it was, and so does every call when [NODE_ENV] is [production]. *)
Theorem console_discipline (w : World) (config : option Config) (c : list string) :
  (forall v c', getVerifier w config c = (Return v, c') -> c' = c) /\
  (NODE_ENV w = Some "production" -> snd (getVerifier w config c) = c).
Proof.
  unfold getVerifier.
  destruct (String.eqb _ "online") eqn:Hon.
  - destruct (negb (VerifierInterface.truthy _)) eqn:Hname.
    + split; [intros v c' [=]|reflexivity].
    + unfold tryCatch, bind, lift, throw, ret, modify.
      destruct (negb (onlyLetters _)); simpl.
      * destruct (bool_decide (NODE_ENV w = Some "production")) eqn:Hprod; simpl.
        -- split; [intros v c' [=]|reflexivity].
        -- split; [intros v c' [=]|].
           intros H. apply bool_decide_eq_false in Hprod. contradiction.
      * destruct (readdirSync w) as [files|e].
        -- destruct (List.find _ files) as [file|].
           ++ destruct (construct w _ _) as [[]|e].
              ** split; [intros v c' [= _ <-]; reflexivity|reflexivity].
              ** destruct (bool_decide (NODE_ENV w = Some "production")) eqn:Hprod;
                   simpl; (split; [intros v c' [=]|]); [reflexivity|].
                 intros H. apply bool_decide_eq_false in Hprod. contradiction.
           ++ destruct (bool_decide (NODE_ENV w = Some "production")) eqn:Hprod;
                simpl; (split; [intros v c' [=]|]); [reflexivity|].
              intros H. apply bool_decide_eq_false in Hprod. contradiction.
        -- destruct (bool_decide (NODE_ENV w = Some "production")) eqn:Hprod;
             simpl; (split; [intros v c' [=]|]); [reflexivity|].
           intros H. apply bool_decide_eq_false in Hprod. contradiction.
  - destruct (String.eqb _ "offline").
    + split; [intros v c' [= _ <-]; reflexivity|reflexivity].
    + split; [intros v c' [=]|reflexivity].
Qed.

Lemma console_discipline_witness :
  snd (getVerifier Samples.factory (Some (Samples.online "dhiway-2"))
         ["started"]) = ["started"].
Proof.
  apply (proj2 (console_discipline Samples.factory
                  (Some (Samples.online "dhiway-2")) ["started"])).
  reflexivity.
Defined.

(** X22: an online verifier the factory returns is always the class of a
    file of the online directory: the issuer name is made of letters, the
    base name of the file is that name in lower case, the class was built
    from the configuration given, and the method is [online] or missing. *)
Theorem selection_sound (w : World) (cfg : Config) (c c' : list string)
    (className : string) (cfg' : Config) :
  getVerifier w (Some cfg) c = (Return (Online className cfg'), c') ->
  cfg' = cfg /\ c' = c /\
  default "online" (method cfg) = "online" /\
  exists name files file,
    issuerName cfg = Some name /\ onlyLetters name = true /\
    readdirSync w = Return files /\ In file files /\
    baseName file = toLowerCase name /\
    className = stripSuffix false ".js" file /\
    construct w className cfg = Return tt.
Proof.
  unfold getVerifier. simpl.
  destruct (String.eqb (default "online" (method cfg)) "online") eqn:Hm.
  - apply String.eqb_eq in Hm.
    destruct (issuerName cfg) as [name|] eqn:Hn; [|intros [=]]. simpl.
    destruct (nonEmpty name); simpl; [|intros [=]].
    unfold tryCatch, bind, lift, throw, ret, modify.
    destruct (onlyLetters name) eqn:Hletters; simpl.
    + destruct (readdirSync w) as [files|e] eqn:Hdir.
      * destruct (List.find _ files) as [file|] eqn:Hfind.
        -- destruct (construct w _ cfg) as [[]|e] eqn:Hctor.
           ++ intros [= <- <- <-]. repeat split; try assumption.
              apply List.find_some in Hfind as [Hin Heq].
              apply String.eqb_eq in Heq.
              exists name, files, file. repeat split; assumption.
           ++ destruct (bool_decide _); intros [=].
        -- destruct (bool_decide _); intros [=].
      * destruct (bool_decide _); intros [=].
    + destruct (bool_decide _); intros [=].
  - destruct (String.eqb _ "offline"); intros [=].
Qed.

Lemma selection_sound_witness :
  exists file,
    In file ["AcmeVerifier.js"; "JharSevaVerifier.js"] /\
    baseName file = "acme" /\ "AcmeVerifier" = stripSuffix false ".js" file.
Proof.
  destruct (selection_sound Samples.factory (Samples.online "ACME") [] []
              "AcmeVerifier" (Samples.online "ACME") eq_refl)
    as (_ & _ & _ & name & files & file & Hn & _ & Hdir & Hin & Hbase & Hcls & _).
  injection Hn as <-. injection Hdir as <-.
  exists file. split; [exact Hin|]. split; [exact Hbase|exact Hcls].
Defined.
End FactoryMore.

(** * Further properties of the JharSeva verifier *)

Module VerifyMore.
Import JsString JharSevaVerifier Variants.

(** X13: the verifier is built only from settings that hold a non-empty
    end point and token; a missing end point is reported first.  The
    name of the expiry field is never empty: it is [validUntil] unless
    the settings give another. *)
Theorem constructor_needs_settings (env : gmap string string) :
  (VerifierInterface.truthy (env !! "JHARSEVA_VERIFICATION_API") = false ->
   JharSevaVerifier.new env
   = Throw "JHARSEVA_VERIFICATION_API environment variable is not set.") /\
  (VerifierInterface.truthy (env !! "JHARSEVA_VERIFICATION_API") = true ->
   VerifierInterface.truthy (env !! "JHARSEVA_VERIFICATION_API_TOKEN") = false ->
   JharSevaVerifier.new env
   = Throw "JHARSEVA_VERIFICATION_API_TOKEN environment variable is not set.") /\
  (forall endpoint token,
      env !! "JHARSEVA_VERIFICATION_API" = Some endpoint ->
      nonEmpty endpoint = true ->
      env !! "JHARSEVA_VERIFICATION_API_TOKEN" = Some token ->
      nonEmpty token = true ->
      exists self,
        JharSevaVerifier.new env = Return self /\
        apiEndpoint self = endpoint /\ apiToken self = token /\
        nonEmpty (expiryField self) = true /\
        (env !! "JHARSEVA_EXPIRY_FIELD" = None -> expiryField self = "validUntil")).
Proof.
  unfold JharSevaVerifier.new. split; [|split].
  - intros ->. reflexivity.
  - intros -> ->. reflexivity.
  - intros endpoint token -> Hendpoint -> Htoken.
    cbn [VerifierInterface.truthy]. rewrite Hendpoint, Htoken. cbn [negb].
    eexists. split; [reflexivity|]. cbn [apiEndpoint apiToken expiryField].
    repeat split.
    + destruct (env !! "JHARSEVA_EXPIRY_FIELD") as [field|]; [|reflexivity].
      cbn [VerifierInterface.truthy default].
      destruct (nonEmpty field) eqn:Hfield; [exact Hfield|reflexivity].
    + intros ->. reflexivity.
Qed.

Lemma constructor_needs_settings_witness :
  exists self,
    JharSevaVerifier.new MoreSamples.settings = Return self /\
    apiEndpoint self = "https://jharseva.example/verify" /\
    expiryField self = "validUntil".
Proof.
  destruct (constructor_needs_settings MoreSamples.settings) as (_ & _ & Hok).
  destruct (Hok "https://jharseva.example/verify" "token")
    as (self & Hnew & Hendpoint & _ & _ & Hfield);
    [reflexivity | reflexivity | reflexivity | reflexivity |].
  exists self. split; [exact Hnew|]. split; [exact Hendpoint|].
  apply Hfield. reflexivity.
Defined.

Lemma verify_rejected self h net credential calls reason :
  checkExpiry self h credential
    = {| isValid := false; checkError := Some reason |} ->
  JharSevaVerifier.verify self h net credential calls
  = (Return (More.rejected reason), calls).
Proof.
  intros Hcheck. unfold JharSevaVerifier.verify, tryCatch.
  rewrite Hcheck. reflexivity.
Qed.

(** X14: a credential that is [null], one whose expiry value is not a
    date, and one whose expiry value cannot be converted, are each
    rejected with a message of their own, and no request is sent. *)
Theorem expiry_rejections (self : JharSevaVerifier.t) (h : Js.Host)
    (net : Network) (calls : list Request) :
  JharSevaVerifier.verify self h net None calls
  = (Return (More.rejected "Invalid credential structure: missing credential data"),
     calls) /\
  (forall fields v,
      fields !! expiryField self = Some v ->
      Js.truthy v = true ->
      Js.newDate h v = Return None ->
      JharSevaVerifier.verify self h net (Some fields) calls
      = (Return (More.rejected "Invalid expiry date format"), calls)) /\
  (forall fields v e,
      fields !! expiryField self = Some v ->
      Js.truthy v = true ->
      Js.newDate h v = Throw e ->
      JharSevaVerifier.verify self h net (Some fields) calls
      = (Return (More.rejected ("Error checking credential expiry: " +:+ e)),
         calls)).
Proof.
  split; [|split].
  - apply verify_rejected. reflexivity.
  - intros fields v Hv Htruthy Hdate. apply verify_rejected.
    unfold checkExpiry, Js.get. rewrite Hv, Htruthy, Hdate. reflexivity.
  - intros fields v e Hv Htruthy Hdate. apply verify_rejected.
    unfold checkExpiry, Js.get. rewrite Hv, Htruthy, Hdate. reflexivity.
Qed.

Lemma expiry_rejections_witness :
  JharSevaVerifier.verify Samples.jharseva Samples.host Samples.accepting
    (Some {[ "validUntil" := Js.VStr "next spring" ]}) []
  = (Return (More.rejected "Invalid expiry date format"), []).
Proof.
  apply (proj1 (proj2 (expiry_rejections Samples.jharseva Samples.host
                         Samples.accepting []))
           {[ "validUntil" := Js.VStr "next spring" ]} (Js.VStr "next spring"));
    reflexivity.
Defined.

(** X15: [verify] sends at most one request, and none when the expiry
    check rejects; the request goes to the end point of the settings,
    with the token as bearer and the credential as it was given. *)
Theorem at_most_one_request (self : JharSevaVerifier.t) (h : Js.Host)
    (net : Network) (credential : Credential) (calls : list Request) :
  exists r sent,
    JharSevaVerifier.verify self h net credential calls
      = (Return r, calls ++ sent) /\
    (isValid (checkExpiry self h credential) = false /\ sent = [] \/
     isValid (checkExpiry self h credential) = true /\
     sent = [ {| url := apiEndpoint self;
                 payload := credential;
                 authorization := "Bearer " +:+ apiToken self;
                 contentType := "application/json" |} ]).
Proof.
  destruct (isValid (checkExpiry self h credential)) eqn:Hvalid.
  - rewrite (VerifyProps.verify_after_check self h net credential calls Hvalid).
    do 2 eexists. split; [reflexivity|]. right. split; reflexivity.
  - unfold JharSevaVerifier.verify, tryCatch. rewrite Hvalid. cbn.
    do 2 eexists. split; [rewrite app_nil_r; reflexivity|].
    left. split; reflexivity.
Qed.

(** X16: an expiry date is in force up to and including its own instant:
    a credential whose expiry date is now or later passes the check, and
    the request is sent. *)
Theorem expiry_date_inclusive (self : JharSevaVerifier.t) (h : Js.Host)
    (net : Network) (fields : gmap string Js.val) (v : Js.val) (t : Z)
    (calls : list Request) :
  fields !! expiryField self = Some v ->
  Js.truthy v = true ->
  Js.newDate h v = Return (Some t) ->
  (Js.now h <= t)%Z ->
  JharSevaVerifier.verify self h net (Some fields) calls
  = (Return (remoteResult net (requestOf self (Some fields))),
     calls ++ [requestOf self (Some fields)]).
Proof.
  intros Hv Htruthy Hdate Hle. apply VerifyProps.verify_after_check.
  unfold checkExpiry, Js.get. rewrite Hv, Htruthy, Hdate. cbn.
  destruct (Z.gtb_spec (Js.now h) t) as [Hgt|_]; [lia|reflexivity].
Qed.

Lemma expiry_date_inclusive_witness :
  snd (JharSevaVerifier.verify Samples.jharseva Samples.host Samples.accepting
         (Some {[ "validUntil" := Js.VNum 1700000000000 ]}) [])
  = [requestOf Samples.jharseva
       (Some {[ "validUntil" := Js.VNum 1700000000000 ]})].
Proof.
  rewrite (expiry_date_inclusive Samples.jharseva Samples.host Samples.accepting
             {[ "validUntil" := Js.VNum 1700000000000 ]}
             (Js.VNum 1700000000000) 1700000000000%Z []);
    [reflexivity | reflexivity | reflexivity | reflexivity | cbn; lia].
Defined.

(** X17: when the request fails, [verify] does not throw: it returns a
    failure that carries the message of the failure both as [error] and
    as [raw]. *)
Theorem transport_failure_is_a_result (self : JharSevaVerifier.t) (h : Js.Host)
    (net : Network) (credential : Credential) (calls : list Request) (e : string) :
  isValid (checkExpiry self h credential) = true ->
  net (requestOf self credential) = Throw e ->
  JharSevaVerifier.verify self h net credential calls
  = (Return {| success := false;
               message := "Verification API error";
               errors := Some [ {| error := Js.VStr e; raw := e |} ] |},
     calls ++ [requestOf self credential]).
Proof.
  intros Hvalid Hnet.
  rewrite (VerifyProps.verify_after_check self h net credential calls Hvalid).
  unfold remoteResult. rewrite Hnet. reflexivity.
Qed.

Lemma transport_failure_is_a_result_witness :
  fst (JharSevaVerifier.verify Samples.jharseva Samples.host
         MoreSamples.unreachable (Some MoreSamples.plain) [])
  = Return (apiError "connect ECONNREFUSED 127.0.0.1:443").
Proof.
  rewrite (transport_failure_is_a_result Samples.jharseva Samples.host
             MoreSamples.unreachable (Some MoreSamples.plain) []
             "connect ECONNREFUSED 127.0.0.1:443");
    reflexivity.
Defined.

(** *** The translation of a response *)

Lemma mapErrors_entryFor (es : list ErrObj) :
  Forall (fun e => phraseNotInherited e = true) es ->
  mapErrors (map Some es) = Return (map entryFor es).
Proof.
  induction es as [|e es IH]; intros Hall; [reflexivity|].
  apply List.Forall_cons_iff in Hall as [He Hes].
  cbn [map mapErrors].
  rewrite (VerifyProps.pushError_entryFor e He), (IH Hes). reflexivity.
Qed.

(** X18: the errors of a response are translated one by one and in
    order, however many there are; an error that is one object, not an
    array, gives one entry. *)
Theorem every_error_translated (response : option Response) :
  (forall es,
      errorOf response = ErrorArray (map Some es) ->
      es <> [] ->
      Forall (fun e => phraseNotInherited e = true) es ->
      translateResponse response = Return (More.failed (map entryFor es))) /\
  (forall e,
      errorOf response = ErrorOther e ->
      phraseNotInherited e = true ->
      translateResponse response = Return (More.failed [entryFor e])).
Proof.
  split.
  - intros es Hresp Hne Hall. unfold translateResponse. rewrite Hresp.
    destruct es as [|e es]; [congruence|].
    change (errorPresent (ErrorArray (map Some (e :: es)))) with true. cbv iota.
    rewrite (mapErrors_entryFor (e :: es) Hall). reflexivity.
  - intros e Hresp He. unfold translateResponse. rewrite Hresp.
    cbn [errorPresent]. rewrite (VerifyProps.pushError_entryFor e He).
    reflexivity.
Qed.

Lemma every_error_translated_witness :
  translateResponse
    (Some {| data :=
               Some (ErrorArray
                       (map Some [ {| errMessage := Some "Expired credential" |};
                                   {| errMessage := Some "Quota exceeded" |};
                                   {| errMessage := None |} ])) |})
  = Return (More.failed
              [ {| error := Js.VStr "The credential has expired and is no longer valid.";
                   raw := "Expired credential" |};
                {| error := Js.VStr "An unknown error occurred during verification.";
                   raw := "Quota exceeded" |};
                {| error := Js.VStr "An unknown error occurred during verification.";
                   raw := "An unknown error occurred" |} ]).
Proof.
  apply (proj1 (every_error_translated _)
           [ {| errMessage := Some "Expired credential" |};
             {| errMessage := Some "Quota exceeded" |};
             {| errMessage := None |} ]).
  - reflexivity.
  - discriminate.
  - repeat constructor.
Defined.

Lemma mapErrors_null (items : list (option ErrObj)) :
  In None items -> mapErrors items = Throw More.nullMessage.
Proof.
  induction items as [|i items IH]; intros Hin; [destruct Hin|].
  cbn [mapErrors]. destruct i as [e|]; [|reflexivity].
  destruct Hin as [Hin|Hin]; [discriminate|].
  cbn [pushError]. rewrite (IH Hin). reflexivity.
Qed.

(** X19: a [null] among the errors of a response makes the translation
    throw; [verify] catches it and returns the failure of a failed
    request, with the message of that error. *)
Theorem null_error_is_api_error (self : JharSevaVerifier.t) (h : Js.Host)
    (net : Network) (credential : Credential) (calls : list Request)
    (response : option Response) (items : list (option ErrObj)) :
  isValid (checkExpiry self h credential) = true ->
  net (requestOf self credential) = Return response ->
  errorOf response = ErrorArray items ->
  In None items ->
  translateResponse response = Throw More.nullMessage /\
  JharSevaVerifier.verify self h net credential calls
  = (Return (apiError More.nullMessage), calls ++ [requestOf self credential]).
Proof.
  intros Hvalid Hnet Hresp Hnull.
  assert (Hthrow : translateResponse response = Throw More.nullMessage).
  { unfold translateResponse. rewrite Hresp.
    destruct items as [|i items]; [destruct Hnull|].
    change (errorPresent (ErrorArray (i :: items))) with true. cbv iota.
    rewrite (mapErrors_null (i :: items) Hnull). reflexivity. }
  split; [exact Hthrow|].
  rewrite (VerifyProps.verify_after_check self h net credential calls Hvalid).
  unfold remoteResult. rewrite Hnet, Hthrow. reflexivity.
Qed.

Lemma null_error_is_api_error_witness :
  fst (JharSevaVerifier.verify Samples.jharseva Samples.host
         MoreSamples.malformed (Some MoreSamples.plain) [])
  = Return (apiError More.nullMessage).
Proof.
  destruct (null_error_is_api_error Samples.jharseva Samples.host
              MoreSamples.malformed (Some MoreSamples.plain) []
              (Some {| data := Some (ErrorArray [None]) |}) [None])
    as [_ Hrun]; [reflexivity | reflexivity | reflexivity | left; reflexivity |].
  rewrite Hrun. reflexivity.
Defined.

(** X20: an [error] field that is falsy ([null], [false], [0], the empty
    string) and an empty error array count as no error: the translation
    is the plain success. *)
Theorem falsy_error_is_success (response : option Response) :
  errorOf response = Falsy \/ errorOf response = ErrorArray [] ->
  translateResponse response = Return More.verified.
Proof.
  intros [H|H]; unfold translateResponse; rewrite H; reflexivity.
Qed.

Lemma falsy_error_is_success_witness :
  translateResponse (Some {| data := Some (ErrorArray []) |})
  = Return More.verified.
Proof. apply falsy_error_is_success. right. reflexivity. Defined.
End VerifyMore.

(** * The registry, whatever a module throws *)

Module RegistryAnyProps.
Import JsString AnyThrow RegistrySpec.
Import Registry (Issuer, LogLine, Warn, Error, St, issuers, console,
                 id, name, title, type, description,
                 verifierNameToIssuerId, verifierNameToDisplayName,
                 titleMatch, join, onlineVerifiersPath, offlineVerifiersPath,
                 couldNotInstantiate).
Import RegistryAny.

Lemma any_extractTitle_run w dir file s :
  extractTitle w dir file (Path.basename file ".js") s =
  (Done (extractedTitle (errorsOnly w) dir file),
   {| issuers := issuers s;
      console := console s ++ extractLogs (errorsOnly w) dir file |}).
Proof.
  unfold extractTitle, extractedTitle, extractLogs, tryCatchT, bindT, liftT,
    retT, log, modifyT, errorsOnly. cbn [Registry.readFileSync].
  destruct (readFileSync w (join dir file)) as [content|e]; cbn.
  - rewrite app_nil_r. destruct s; reflexivity.
  - reflexivity.
Qed.

Lemma any_onlineEntry_run w file s :
  onlineEntry w file s =
  if endsWith "Verifier.js" file then
    match abortsWith w onlineVerifiersPath file with
    | Some m => (Thrown (ErrorValue m), s)
    | None =>
        (Done tt,
         {| issuers := issuers s ++ [onlineIssuerOf (errorsOnly w) file];
            console :=
              console s ++ entryLogs (errorsOnly w) onlineVerifiersPath file |})
    end
  else (Done tt, s).
Proof.
  unfold onlineEntry.
  destruct (endsWith "Verifier.js" file); [|reflexivity].
  unfold abortsWith, onlineIssuerOf, resolvedTitle, entryLogs, displayNameFor,
    errorsOnly.
  cbn [Registry.instantiate Registry.mainFilename].
  unfold tryCatchT at 1. unfold bindT at 1. unfold liftT at 1.
  destruct (instantiate w (join onlineVerifiersPath file)) as [inst|[e| |]].
  - unfold push, modifyT. cbn. rewrite app_nil_r. reflexivity.
  - unfold bindT at 1. unfold messageOf, retT at 1.
    unfold bindT at 1. unfold log at 1, modifyT at 1.
    unfold bindT at 1. rewrite any_extractTitle_run.
    unfold push, modifyT. cbn. rewrite <- app_assoc. reflexivity.
  - reflexivity.
  - reflexivity.
Qed.

Lemma any_offlineEntry_run w file s :
  offlineEntry w file s =
  if endsWith "Verifier.js" file then
    match abortsWith w offlineVerifiersPath file with
    | Some m => (Thrown (ErrorValue m), s)
    | None =>
        (Done tt,
         {| issuers := issuers s ++ [offlineIssuerOf (errorsOnly w) file];
            console :=
              console s ++ entryLogs (errorsOnly w) offlineVerifiersPath file |})
    end
  else (Done tt, s).
Proof.
  unfold offlineEntry.
  destruct (endsWith "Verifier.js" file); [|reflexivity].
  unfold abortsWith, offlineIssuerOf, resolvedTitle, entryLogs, displayNameFor,
    errorsOnly.
  cbn [Registry.instantiate Registry.mainFilename].
  unfold tryCatchT at 1. unfold bindT at 1. unfold liftT at 1.
  destruct (instantiate w (join offlineVerifiersPath file)) as [inst|[e| |]].
  - unfold push, modifyT. cbn. rewrite app_nil_r. reflexivity.
  - unfold bindT at 1. unfold messageOf, retT at 1.
    unfold bindT at 1. unfold log at 1, modifyT at 1.
    unfold bindT at 1. rewrite any_extractTitle_run.
    unfold push, modifyT. cbn. rewrite <- app_assoc. reflexivity.
  - reflexivity.
  - reflexivity.
Qed.

(** A loop whose body either adds an entry or throws. *)
Lemma any_forEach_run w dir (body : string -> MT St unit)
    (issuerOf : string -> Issuer) (logsOf : string -> list LogLine) :
  (forall file s,
      body file s =
      if endsWith "Verifier.js" file then
        match abortsWith w dir file with
        | Some m => (Thrown (ErrorValue m), s)
        | None =>
            (Done tt,
             {| issuers := issuers s ++ [issuerOf file];
                console := console s ++ logsOf file |})
        end
      else (Done tt, s)) ->
  forall files s,
    forEachT body files s =
    (match aborted w dir files with
     | Some m => Thrown (ErrorValue m)
     | None => Done tt
     end,
     {| issuers := issuers s ++ map issuerOf (reached w dir files);
        console := console s ++ flat_map logsOf (reached w dir files) |}).
Proof.
  intros Hbody files. induction files as [|file files IH]; intros s.
  - cbn. unfold retT. rewrite !app_nil_r. destruct s; reflexivity.
  - cbn [forEachT reached aborted]. unfold bindT. rewrite Hbody.
    destruct (endsWith "Verifier.js" file).
    + destruct (abortsWith w dir file) as [m|].
      * cbn. rewrite !app_nil_r. destruct s; reflexivity.
      * rewrite IH. cbn. rewrite <- !app_assoc. reflexivity.
    + apply IH.
Qed.


Lemma any_discoverOnlineVerifiers_run w c :
  discoverOnlineVerifiers w c =
  (Done (map (onlineIssuerOf (errorsOnly w)) (anyReached w onlineVerifiersPath)),
   c ++ anyLogs w onlineVerifiersPath "Error discovering online verifiers: ").
Proof.
  unfold discoverOnlineVerifiers, withIssuers, anyReached, anyLogs.
  unfold bindT at 1. unfold tryCatchT, bindT, liftT.
  destruct (readdirSync w onlineVerifiersPath) as [files|e]; cbn [ofOutcome].
  - rewrite (any_forEach_run w onlineVerifiersPath _ _ _ (any_onlineEntry_run w)).
    destruct (aborted w onlineVerifiersPath files) as [m|]; cbn.
    + rewrite <- app_assoc. reflexivity.
    + rewrite app_nil_r. reflexivity.
  - reflexivity.
Qed.

Lemma any_discoverOfflineVerifiers_run w c :
  discoverOfflineVerifiers w c =
  (Done (map (offlineIssuerOf (errorsOnly w)) (anyReached w offlineVerifiersPath)),
   c ++ anyLogs w offlineVerifiersPath "Error discovering offline verifiers: ").
Proof.
  unfold discoverOfflineVerifiers, withIssuers, anyReached, anyLogs.
  unfold bindT at 1. unfold tryCatchT, bindT, liftT.
  destruct (readdirSync w offlineVerifiersPath) as [files|e]; cbn [ofOutcome].
  - rewrite (any_forEach_run w offlineVerifiersPath _ _ _ (any_offlineEntry_run w)).
    destruct (aborted w offlineVerifiersPath files) as [m|]; cbn.
    + rewrite <- app_assoc. reflexivity.
    + rewrite app_nil_r. reflexivity.
  - reflexivity.
Qed.

(** *** Surroundings in which what is thrown is an [Error] *)

Lemma any_abortsWith_ofWorld w0 dir file :
  abortsWith (ofWorld w0) dir file = None.
Proof.
  unfold abortsWith, ofWorld. cbn [instantiate].
  destruct (Registry.instantiate w0 (join dir file)); reflexivity.
Qed.

Lemma any_reached_ofWorld w0 dir files :
  reached (ofWorld w0) dir files = List.filter (endsWith "Verifier.js") files /\
  aborted (ofWorld w0) dir files = None.
Proof.
  induction files as [|file files [IHr IHa]]; [split; reflexivity|].
  cbn [reached aborted List.filter]. rewrite any_abortsWith_ofWorld, IHr, IHa.
  destruct (endsWith "Verifier.js" file); split; reflexivity.
Qed.

Lemma any_instantiate_ofWorld w0 file :
  Registry.instantiate (errorsOnly (ofWorld w0)) file = Registry.instantiate w0 file.
Proof.
  unfold errorsOnly, ofWorld. cbn [Registry.instantiate instantiate].
  destruct (Registry.instantiate w0 file); reflexivity.
Qed.

Lemma any_onlineIssuerOf_ofWorld w0 file :
  onlineIssuerOf (errorsOnly (ofWorld w0)) file = onlineIssuerOf w0 file.
Proof.
  unfold onlineIssuerOf, resolvedTitle, extractedTitle.
  rewrite any_instantiate_ofWorld. reflexivity.
Qed.

Lemma any_offlineIssuerOf_ofWorld w0 file :
  offlineIssuerOf (errorsOnly (ofWorld w0)) file = offlineIssuerOf w0 file.
Proof.
  unfold offlineIssuerOf, resolvedTitle, extractedTitle.
  rewrite any_instantiate_ofWorld. reflexivity.
Qed.

Lemma any_entryLogs_ofWorld w0 dir file :
  entryLogs (errorsOnly (ofWorld w0)) dir file = entryLogs w0 dir file.
Proof.
  unfold entryLogs, extractLogs. rewrite any_instantiate_ofWorld. reflexivity.
Qed.

Lemma any_map_ext {A B} (f g : A -> B) (l : list A) :
  (forall x, f x = g x) -> map f l = map g l.
Proof. intros H. induction l as [|x l IH]; cbn; [reflexivity|]. rewrite H, IH. reflexivity. Qed.

Lemma any_flat_map_ext {A B} (f g : A -> list B) (l : list A) :
  (forall x, f x = g x) -> flat_map f l = flat_map g l.
Proof. intros H. induction l as [|x l IH]; cbn; [reflexivity|]. rewrite H, IH. reflexivity. Qed.

(** The functions of [Registry] are those of [RegistryAny] in
    surroundings in which what is thrown is an [Error]. *)
Lemma any_discovery_agrees (w0 : Registry.World) (c : list LogLine) :
  discoverOnlineVerifiers (ofWorld w0) c
  = (ofOutcome (fst (Registry.discoverOnlineVerifiers w0 c)),
     snd (Registry.discoverOnlineVerifiers w0 c)) /\
  discoverOfflineVerifiers (ofWorld w0) c
  = (ofOutcome (fst (Registry.discoverOfflineVerifiers w0 c)),
     snd (Registry.discoverOfflineVerifiers w0 c)).
Proof.
  rewrite any_discoverOnlineVerifiers_run, any_discoverOfflineVerifiers_run,
    RegistryRuns.discoverOnlineVerifiers_run,
    RegistryRuns.discoverOfflineVerifiers_run.
  cbn [fst snd ofOutcome].
  unfold anyReached, anyLogs, listingLogs, registered.
  change (readdirSync (ofWorld w0)) with (Registry.readdirSync w0).
  split.
  - destruct (Registry.readdirSync w0 onlineVerifiersPath) as [files|e];
      [|reflexivity].
    destruct (any_reached_ofWorld w0 onlineVerifiersPath files) as [-> ->].
    rewrite app_nil_r.
    rewrite (any_map_ext _ _ _ (any_onlineIssuerOf_ofWorld w0)).
    rewrite (any_flat_map_ext _ _ _ (any_entryLogs_ofWorld w0 onlineVerifiersPath)).
    reflexivity.
  - destruct (Registry.readdirSync w0 offlineVerifiersPath) as [files|e];
      [|reflexivity].
    destruct (any_reached_ofWorld w0 offlineVerifiersPath files) as [-> ->].
    rewrite app_nil_r.
    rewrite (any_map_ext _ _ _ (any_offlineIssuerOf_ofWorld w0)).
    rewrite (any_flat_map_ext _ _ _ (any_entryLogs_ofWorld w0 offlineVerifiersPath)).
    reflexivity.
Qed.

(** *** Modules that throw [null] or [undefined] *)

(** Discovery returns a list in all surroundings: the [TypeError] of
    the inner [catch] block is caught by the outer one. *)
Lemma any_discovery_returns (w : World) (c : list LogLine) :
  exists online offline c1 c2,
    discoverOnlineVerifiers w c = (Done online, c1) /\
    discoverOfflineVerifiers w c = (Done offline, c2).
Proof.
  rewrite any_discoverOnlineVerifiers_run, any_discoverOfflineVerifiers_run.
  do 4 eexists. split; reflexivity.
Qed.

(** C9, at a directory whose first module throws [null]: the two files
    [AaVerifier.js] and [BbVerifier.js] pass the test and the module of
    the second loads, but reading [message] of the [null] that the first
    threw throws in the inner [catch] block; the outer one ends the
    loop, so neither file is listed, where the claim has the first
    recorded by the fallback and the listing go on. *)
Theorem null_throw_aborts_listing :
  readdirSync AnySamples.nullModule onlineVerifiersPath
    = Return ["AaVerifier.js"; "BbVerifier.js"] /\
  endsWith "Verifier.js" "AaVerifier.js" = true /\
  endsWith "Verifier.js" "BbVerifier.js" = true /\
  instantiate AnySamples.nullModule (join onlineVerifiersPath "AaVerifier.js")
    = Thrown NullValue /\
  instantiate AnySamples.nullModule (join onlineVerifiersPath "BbVerifier.js")
    = Done (VerifierInterface.new None) /\
  discoverOnlineVerifiers AnySamples.nullModule []
  = (Done [],
     [Error ("Error discovering online verifiers: " +:+ nullMessage)]).
Proof. repeat split. Qed.

(** X7: an offline variant that the listing reaches (no file before it
    throws [null] or [undefined]), that cannot be built because an
    [Error] is thrown, and whose source text begins with the declaration
    of a title other than its file name, is listed under the declared
    title, with the title in lower case as its id. *)
Theorem any_fallback_uses_declared_title (w : World) (c : list LogLine)
    (files : list string) (file e : string) (q1 q2 : ascii)
    (value rest : string) :
  readdirSync w offlineVerifiersPath = Return files ->
  In file (reached w offlineVerifiersPath files) ->
  instantiate w (join offlineVerifiersPath file) = Thrown (ErrorValue e) ->
  readFileSync w (join offlineVerifiersPath file)
    = Return (More.titleDeclaration q1 q2 value rest) ->
  isQuote q1 = true -> isQuote q2 = true ->
  nonEmpty value = true -> More.quoteFree value = true ->
  value <> Path.basename file ".js" ->
  exists offline i,
    fst (discoverOfflineVerifiers w c) = Done offline /\
    In i offline /\
    id i = toLowerCase value /\ name i = value /\ title i = value /\
    In (couldNotInstantiate file e) (snd (discoverOfflineVerifiers w c)).
Proof.
  intros Hdir Hin Hthrow Hread Hq1 Hq2 Hne Hfree Hcustom.
  rewrite any_discoverOfflineVerifiers_run. cbn [fst snd].
  unfold anyReached, anyLogs. rewrite Hdir.
  eexists. exists (offlineIssuerOf (errorsOnly w) file).
  split; [reflexivity|]. split; [apply List.in_map; exact Hin|].
  assert (Hinst : Registry.instantiate (errorsOnly w)
                    (join offlineVerifiersPath file) = Throw e).
  { unfold errorsOnly. cbn [Registry.instantiate]. rewrite Hthrow. reflexivity. }
  unfold offlineIssuerOf, resolvedTitle, extractedTitle, displayNameFor.
  rewrite Hinst.
  change (Registry.readFileSync (errorsOnly w)) with (readFileSync w).
  rewrite Hread,
    (RegistryMore.titleMatch_declaration q1 q2 value rest Hq1 Hq2 Hne Hfree).
  apply String.eqb_neq in Hcustom. rewrite Hcustom.
  repeat split.
  apply List.in_or_app. right. apply List.in_or_app. left.
  apply List.in_flat_map. exists file. split; [exact Hin|].
  unfold entryLogs. rewrite Hinst. left. reflexivity.
Qed.

Lemma any_fallback_uses_declared_title_witness :
  exists offline i,
    fst (discoverOfflineVerifiers AnySamples.nullModule []) = Done offline /\
    In i offline /\
    id i = "sunbird-rc" /\ name i = "sunbird-rc" /\ title i = "sunbird-rc".
Proof.
  destruct (any_fallback_uses_declared_title AnySamples.nullModule []
              ["SignatureVerifier.js"] "SignatureVerifier.js"
              "Cannot find module" "'" "'" "sunbird-rc" ";")
    as (offline & i & Hrun & Hin & Hid & Hname & Htitle & _);
    try reflexivity.
  - left. reflexivity.
  - vm_compute. discriminate.
  - exists offline, i. repeat split; assumption.
Defined.
End RegistryAnyProps.

(** * The factory, whatever a constructor throws *)

Module FactoryAnyProps.
Import JsString AnyThrow.
Import VerifierFactory (Config, mkConfig, method, issuerName, Verifier,
                        Online, Offline, baseName).
Import FactoryAny.


(** The online branch with a well-formed name. *)
Lemma any_getVerifier_lookup w c cfg name :
  default "online" (method cfg) = "online" ->
  issuerName cfg = Some name ->
  onlyLetters name = true ->
  getVerifier w (Some cfg) c =
  match readdirSync w with
  | Throw e => caught w c name (ErrorValue e)
  | Return files =>
      match List.find
              (fun f => String.eqb (baseName f) (toLowerCase name)) files with
      | None =>
          caught w c name
            (ErrorValue ("No verifier file found for issuer: " +:+ name))
      | Some file =>
          match construct w (stripSuffix false ".js" file) cfg with
          | Done _ => (Done (Online (stripSuffix false ".js" file) cfg), c)
          | Thrown e => caught w c name e
          end
      end
  end.
Proof.
  intros Hm Hn Hletters.
  unfold getVerifier, caught. simpl. rewrite Hm, Hn. simpl.
  assert (Hne : nonEmpty name = true) by (destruct name; [discriminate|reflexivity]).
  rewrite Hne. simpl.
  unfold tryCatchT, bindT, liftT, raise, retT, modifyT, messageOf.
  rewrite Hletters. simpl.
  destruct (readdirSync w) as [files|e]; simpl.
  - destruct (List.find _ files) as [file|].
    + destruct (construct w _ cfg) as [[]|[e| |]]; [reflexivity| | |];
        destruct (bool_decide _); reflexivity.
    + destruct (bool_decide _); reflexivity.
  - destruct (bool_decide _); reflexivity.
Qed.

(** X11: with a well-formed issuer name, a failure of the online
    look-up, be it that the directory cannot be listed, that no file has
    the base name, or that building the class throws an [Error], reaches
    the caller as the one error [Unknown online verifier], the cause
    going to the console outside production only.  When building the
    class throws [null], the caller gets that error in production, and
    outside production the [TypeError] of reading [message] of [null],
    with nothing written. *)
Theorem any_lookup_failures (w : World) (c : list string)
    (cfg : Config) (name : string) :
  default "online" (method cfg) = "online" ->
  issuerName cfg = Some name ->
  onlyLetters name = true ->
  (forall e,
      readdirSync w = Throw e ->
      getVerifier w (Some cfg) c
      = (Thrown (ErrorValue ("Unknown online verifier: " +:+ name)),
         consoleAfter w c e)) /\
  (forall files,
      readdirSync w = Return files ->
      (forall f, In f files -> baseName f <> toLowerCase name) ->
      getVerifier w (Some cfg) c
      = (Thrown (ErrorValue ("Unknown online verifier: " +:+ name)),
         consoleAfter w c ("No verifier file found for issuer: " +:+ name))) /\
  (forall files file e,
      readdirSync w = Return files ->
      List.find (fun f => String.eqb (baseName f) (toLowerCase name)) files
        = Some file ->
      construct w (stripSuffix false ".js" file) cfg = Thrown (ErrorValue e) ->
      getVerifier w (Some cfg) c
      = (Thrown (ErrorValue ("Unknown online verifier: " +:+ name)),
         consoleAfter w c e)) /\
  (forall files file,
      readdirSync w = Return files ->
      List.find (fun f => String.eqb (baseName f) (toLowerCase name)) files
        = Some file ->
      construct w (stripSuffix false ".js" file) cfg = Thrown NullValue ->
      getVerifier w (Some cfg) c
      = (Thrown (ErrorValue
                   (if bool_decide (NODE_ENV w = Some "production")
                    then "Unknown online verifier: " +:+ name
                    else nullMessage)),
         c)).
Proof.
  intros Hm Hn Hletters.
  rewrite (any_getVerifier_lookup w c cfg name Hm Hn Hletters).
  unfold caught, consoleAfter.
  split; [|split; [|split]].
  - intros e ->. destruct (bool_decide _); reflexivity.
  - intros files -> Hnone.
    destruct (List.find _ files) as [file|] eqn:Hfind.
    + apply List.find_some in Hfind as [Hin Heq]. apply String.eqb_eq in Heq.
      destruct (Hnone file Hin Heq).
    + destruct (bool_decide _); reflexivity.
  - intros files file e -> -> ->. destruct (bool_decide _); reflexivity.
  - intros files file -> -> ->. destruct (bool_decide _); reflexivity.
Qed.

Lemma any_lookup_failures_witness :
  getVerifier AnySamples.failingConstructor (Some (Samples.online "jharseva")) []
  = (Thrown (ErrorValue "Unknown online verifier: jharseva"),
     ["Error loading verifier: JHARSEVA_VERIFICATION_API environment variable is not set."]) /\
  getVerifier (AnySamples.nullConstructor None) (Some (Samples.online "acme")) []
  = (Thrown (ErrorValue nullMessage), []) /\
  getVerifier (AnySamples.nullConstructor (Some "production"))
    (Some (Samples.online "acme")) []
  = (Thrown (ErrorValue "Unknown online verifier: acme"), []).
Proof.
  split; [|split].
  - destruct (any_lookup_failures AnySamples.failingConstructor []
                (Samples.online "jharseva") "jharseva")
      as (_ & _ & Hctor & _); [reflexivity | reflexivity | reflexivity |].
    apply (Hctor ["JharSevaVerifier.js"] "JharSevaVerifier.js"
             "JHARSEVA_VERIFICATION_API environment variable is not set.");
      reflexivity.
  - destruct (any_lookup_failures (AnySamples.nullConstructor None) []
                (Samples.online "acme") "acme")
      as (_ & _ & _ & Hnull); [reflexivity | reflexivity | reflexivity |].
    apply (Hnull ["AcmeVerifier.js"] "AcmeVerifier.js"); reflexivity.
  - destruct (any_lookup_failures (AnySamples.nullConstructor (Some "production")) []
                (Samples.online "acme") "acme")
      as (_ & _ & _ & Hnull); [reflexivity | reflexivity | reflexivity |].
    apply (Hnull ["AcmeVerifier.js"] "AcmeVerifier.js"); reflexivity.
Defined.

(** The function of [VerifierFactory] is that of [FactoryAny] in
    surroundings in which what is thrown is an [Error]. *)
Lemma any_getVerifier_agrees (w0 : VerifierFactory.World)
    (config : option Config) (c : list string) :
  getVerifier (ofWorld w0) config c
  = (ofOutcome (fst (VerifierFactory.getVerifier w0 config c)),
     snd (VerifierFactory.getVerifier w0 config c)).
Proof.
  unfold getVerifier, VerifierFactory.getVerifier, ofWorld.
  cbn [readdirSync construct NODE_ENV].
  destruct (String.eqb _ "online").
  - destruct (negb (VerifierInterface.truthy _)); [reflexivity|].
    unfold tryCatchT, tryCatch, bindT, bind, liftT, lift, raise, throw, retT, ret,
      modifyT, modify, messageOf.
    destruct (negb (onlyLetters _)); simpl.
    + destruct (bool_decide _); reflexivity.
    + destruct (VerifierFactory.readdirSync w0) as [files|e]; simpl.
      * destruct (List.find _ files) as [file|]; simpl.
        -- destruct (VerifierFactory.construct w0 _ _) as [[]|e]; simpl;
             [reflexivity|]. destruct (bool_decide _); reflexivity.
        -- destruct (bool_decide _); reflexivity.
      * destruct (bool_decide _); reflexivity.
  - destruct (String.eqb _ "offline"); reflexivity.
Qed.
End FactoryAnyProps.

(** * The translation of a response, whatever it holds *)

Module ResponseAnyProps.
Import JsString ResponseAny.

Section WithHost.
Variable toPropertyKey : Js.val -> outcome string.



End WithHost.


(** *** The typed response *)

Lemma any_pushError_agrees toPropertyKey (i : option JharSevaVerifier.ErrObj) :
  pushError toPropertyKey (ofItem i)
  = match JharSevaVerifier.pushError i with
    | Return x => Return (ofEntry x)
    | Throw m => Throw m
    end.
Proof.
  destruct i as [[[m|]]|]; [|reflexivity|reflexivity].
  destruct m; reflexivity.
Qed.

Lemma any_mapErrors_agrees toPropertyKey
    (items : list (option JharSevaVerifier.ErrObj)) :
  mapErrors toPropertyKey (map ofItem items)
  = match JharSevaVerifier.mapErrors items with
    | Return xs => Return (map ofEntry xs)
    | Throw m => Throw m
    end.
Proof.
  induction items as [|i items IH]; [reflexivity|].
  cbn [map mapErrors JharSevaVerifier.mapErrors].
  rewrite any_pushError_agrees, IH.
  destruct (JharSevaVerifier.pushError i); [|reflexivity].
  destruct (JharSevaVerifier.mapErrors items); reflexivity.
Qed.

(** The translation of [JharSevaVerifier] is this one at responses whose
    error entries carry a text as message, or none. *)
Lemma any_translateResponse_agrees toPropertyKey
    (response : option JharSevaVerifier.Response) :
  translateResponse toPropertyKey (ofErrorField (JharSevaVerifier.errorOf response))
  = ofOutcomeResult (JharSevaVerifier.translateResponse response).
Proof.
  unfold translateResponse, JharSevaVerifier.translateResponse.
  destruct (JharSevaVerifier.errorOf response) as [| |items|e].
  - reflexivity.
  - reflexivity.
  - destruct items as [|i items]; [reflexivity|].
    change (errorPresent (ofErrorField (JharSevaVerifier.ErrorArray (i :: items))))
      with true.
    change (JharSevaVerifier.errorPresent (JharSevaVerifier.ErrorArray (i :: items)))
      with true.
    cbv iota. cbn [ofErrorField].
    rewrite any_mapErrors_agrees.
    destruct (JharSevaVerifier.mapErrors (i :: items)) as [l|m]; [|reflexivity].
    destruct l; reflexivity.
  - destruct e as [[m|]]; [destruct m|]; reflexivity.
Qed.
End ResponseAnyProps.
